(** * netnet: the airodump-ng dump parser, the MAC classifier and the
    periodic refresh of the published lists

    A shallow embedding of [filterByLastSeen], [getData], [isLocalMAC],
    [parseAirodumpCsv], [getAPData] and [getClientsData], together with
    models of the Go library calls they make ([strings], [strconv],
    [encoding/csv], [time]).  Of the three variants of the program in the
    repository, the embedding follows the one that parses both tables of
    the dump; the two older ones read the client table only and end the
    process with [log.Fatal] where this one prints and goes on.

    Conventions.
    - A Go [string] is a sequence of bytes: a Rocq [string].
    - Go's [int] and [int64] are 64-bit two's complement integers: [Z]
      values, with the wrap-around written out where the code computes.
    - A run-time panic (index or slice bound out of range) is the [Panic]
      outcome of the [result] monad; nothing in the program recovers
      from a panic, so it ends the process.
    - What the program prints on standard output is not part of the
      model: [check(err, msg)] and the other calls of [fmt.Println] leave
      no trace in it. *)

From Stdlib Require Import ZArith String Ascii List Bool Lia.
From stdpp Require Import base gmap strings list.

Local Open Scope string_scope.
Local Open Scope list_scope.

(** ** Outcomes of code that may panic *)

Inductive panic : Type :=
  | IndexOutOfRange (index len : nat)
  | SliceBoundsOutOfRange (bound len : nat).

Inductive result (A : Type) : Type :=
  | Ok (a : A)
  | Panic (p : panic).

Arguments Ok {A} a.
Arguments Panic {A} p.

#[global] Instance result_ret : MRet result := fun A a => Ok a.
#[global] Instance result_bind : MBind result := fun A B f m =>
  match m with
  | Ok a => f a
  | Panic p => Panic p
  end.

(** ** Bytes and strings *)

Module GoString.

Definition byte (c : ascii) : Z := Z.of_N (N_of_ascii c).

Definition len (s : string) : nat := String.length s.

(** [s[:n]]: the first [n] bytes; panics when [n > len(s)]. *)
Fixpoint prefix_bytes (n : nat) (s : string) : string :=
  match n, s with
  | S k, String c r => String c (prefix_bytes k r)
  | _, _ => ""
  end.

Definition slice_to (s : string) (n : nat) : result string :=
  if (n <=? len s)%nat then Ok (prefix_bytes n s)
  else Panic (SliceBoundsOutOfRange n (len s)).

(** [l[i]] on a slice of strings; panics when [i >= len(l)]. *)
Definition index (l : list string) (i : nat) : result string :=
  match l !! i with
  | Some s => Ok s
  | None => Panic (IndexOutOfRange i (length l))
  end.

(** [strings.HasPrefix(s, p)] *)
Fixpoint HasPrefix (s p : string) {struct p} : bool :=
  match p, s with
  | "", _ => true
  | String a p', String b s' => Ascii.eqb a b && HasPrefix s' p'
  | String _ _, "" => false
  end.

(** [strings.Contains(s, sep)] *)
Fixpoint Contains (s sep : string) : bool :=
  HasPrefix s sep ||
  match s with
  | "" => false
  | String _ s' => Contains s' sep
  end.

(** [strings.Split(s, sep)] for a non-empty [sep]: the pieces of [s]
    between the occurrences of [sep], searched from the left without
    overlap.  [skip] counts the bytes of a matched separator that are
    still to be passed over; [cur] is the piece being read, reversed. *)
Fixpoint Split_from (sep s : string) (skip : nat) (cur : string)
  : list string :=
  match s with
  | "" => [String.rev cur]
  | String c s' =>
      match skip with
      | S k => Split_from sep s' k cur
      | O =>
          if HasPrefix s sep
          then String.rev cur :: Split_from sep s' (len sep - 1) ""
          else Split_from sep s' 0 (String c cur)
      end
  end.

Definition Split (s sep : string) : list string := Split_from sep s 0 "".

(** [strings.ReplaceAll(s, old, new)] for a non-empty [old]. *)
Fixpoint ReplaceAll_from (old new s : string) (skip : nat) : string :=
  match s with
  | "" => ""
  | String c s' =>
      match skip with
      | S k => ReplaceAll_from old new s' k
      | O =>
          if HasPrefix s old
          then new +:+ ReplaceAll_from old new s' (len old - 1)
          else String c (ReplaceAll_from old new s' 0)
      end
  end.

Definition ReplaceAll (s old new : string) : string :=
  ReplaceAll_from old new s 0.

(** [unicode.IsSpace] on the UTF-8 encoding.  The white-space runes are
    U+0009..U+000D, U+0020, U+0085, U+00A0, U+1680, U+2000..U+200A,
    U+2028, U+2029, U+202F, U+205F and U+3000; each has one valid
    encoding, of one, two or three bytes. *)
Definition space1 (a : ascii) : bool :=
  let x := byte a in
  ((9 <=? x) && (x <=? 13) || (x =? 32))%Z.

Definition space2 (a b : ascii) : bool :=
  ((byte a =? 194) && ((byte b =? 133) || (byte b =? 160)))%Z.

Definition space3 (a b c : ascii) : bool :=
  let '(x, y, z) := (byte a, byte b, byte c) in
  ((x =? 225) && (y =? 154) && (z =? 128)
   || (x =? 226) && (y =? 128)
      && ((128 <=? z) && (z <=? 138) || (z =? 168) || (z =? 169)
          || (z =? 175))
   || (x =? 226) && (y =? 129) && (z =? 159)
   || (x =? 227) && (y =? 128) && (z =? 128))%Z.

(** [strings.TrimLeftFunc(s, unicode.IsSpace)] *)
Fixpoint TrimLeftSpace (s : string) : string :=
  match s with
  | "" => ""
  | String a r =>
      if space1 a then TrimLeftSpace r
      else
        match r with
        | String b r2 =>
            if space2 a b then TrimLeftSpace r2
            else
              match r2 with
              | String c r3 =>
                  if space3 a b c then TrimLeftSpace r3 else s
              | "" => s
              end
        | "" => s
        end
  end.

(** The same from the right end, on the reversed string: the last rune
    is decoded from the bytes that end the string. *)
Fixpoint TrimLeftSpace_rev (s : string) : string :=
  match s with
  | "" => ""
  | String a r =>
      if space1 a then TrimLeftSpace_rev r
      else
        match r with
        | String b r2 =>
            if space2 b a then TrimLeftSpace_rev r2
            else
              match r2 with
              | String c r3 =>
                  if space3 c b a then TrimLeftSpace_rev r3 else s
              | "" => s
              end
        | "" => s
        end
  end.

Definition TrimRightSpace (s : string) : string :=
  String.rev (TrimLeftSpace_rev (String.rev s)).

(** [strings.TrimSpace(s)] *)
Definition TrimSpace (s : string) : string :=
  TrimRightSpace (TrimLeftSpace s).

End GoString.

(** ** [strconv]: [ParseUint], [ParseInt] and [Atoi] *)

Module strconv.
Import GoString.
Local Open Scope Z_scope.

Inductive NumError : Type := ErrSyntax | ErrRange.

Definition IntSize : Z := 64.
Definition maxUint64 : Z := 2 ^ 64 - 1.

(** [lower(c) = c | ('x' - 'X')] *)
Definition lower (c : Z) : Z := Z.lor c 32.

(** The digit a byte stands for, before the comparison with the base. *)
Definition digit (c : Z) : option Z :=
  if (48 <=? c) && (c <=? 57) then Some (c - 48)
  else if (97 <=? lower c) && (lower c <=? 122) then Some (lower c - 97 + 10)
  else None.

(** The loop of [ParseUint] over the bytes of [s], for [2 <= base <= 36]
    (no underscores: they are read for base 0 only). *)
Fixpoint ParseUint_digits (s : string) (base maxVal n : Z)
  : Z * option NumError :=
  match s with
  | "" => (n, None)
  | String c r =>
      match digit (byte c) with
      | None => (0, Some ErrSyntax)
      | Some d =>
          if d >=? base then (0, Some ErrSyntax)
          else if n >=? maxUint64 / base + 1 then (maxVal, Some ErrRange)
          else
            let n' := n * base in
            let n1 := (n' + d) mod 2 ^ 64 in
            if (n1 <? n') || (n1 >? maxVal) then (maxVal, Some ErrRange)
            else ParseUint_digits r base maxVal n1
      end
  end.

Definition ParseUint (s : string) (base bitSize : Z) : Z * option NumError :=
  match s with
  | "" => (0, Some ErrSyntax)
  | _ =>
      let bitSize := if bitSize =? 0 then IntSize else bitSize in
      ParseUint_digits s base (2 ^ bitSize - 1) 0
  end.

Definition ParseInt (s : string) (base bitSize : Z) : Z * option NumError :=
  match s with
  | "" => (0, Some ErrSyntax)
  | String c r =>
      let neg := byte c =? 45 in
      let s' := if (byte c =? 43) || neg then r else s in
      match ParseUint s' base bitSize with
      | (_, Some ErrSyntax) => (0, Some ErrSyntax)
      | (un, _) =>
          let bitSize := if bitSize =? 0 then IntSize else bitSize in
          let cutoff := 2 ^ (bitSize - 1) in
          if negb neg && (un >=? cutoff) then (cutoff - 1, Some ErrRange)
          else if neg && (un >? cutoff) then (- cutoff, Some ErrRange)
          else (if neg then - un else un, None)
      end
  end.

(** The fast path of [Atoi]: decimal digits only, after an optional
    sign. *)
Fixpoint Atoi_digits (s : string) (n : Z) : option Z :=
  match s with
  | "" => Some n
  | String c r =>
      let ch := (byte c - 48) mod 256 in
      if ch >? 9 then None else Atoi_digits r (n * 10 + ch)
  end.

Definition Atoi (s : string) : Z * option NumError :=
  let sLen := Z.of_nat (len s) in
  if (0 <? sLen) && (sLen <? 19) then
    match s with
    | "" => (0, Some ErrSyntax)
    | String c r =>
        let signed := (byte c =? 45) || (byte c =? 43) in
        let s' := if signed then r else s in
        match s' with
        | "" => (0, Some ErrSyntax)
        | _ =>
            match Atoi_digits s' 0 with
            | None => (0, Some ErrSyntax)
            | Some n => (if byte c =? 45 then - n else n, None)
            end
        end
    end
  else ParseInt s 10 0.

End strconv.

(** ** [encoding/csv]: a [Reader] with [FieldsPerRecord = -1] and
    [TrimLeadingSpace = true] (comma separator, no comment character,
    strict quotes) *)

Module csv.
Import GoString.

Inductive ParseError : Type := ErrBareQuote | ErrQuote.

Definition is_byte (n : Z) (c : ascii) : bool := (byte c =? n)%Z.
Definition newline : ascii -> bool := is_byte 10.
Definition carriage_return : ascii -> bool := is_byte 13.
Definition comma : ascii -> bool := is_byte 44.
Definition quote : ascii -> bool := is_byte 34.

(** What [readLine] does to the line ends: a carriage return before a
    newline is removed, and so is one that ends the input. *)
Fixpoint normalize (s : string) : string :=
  match s with
  | "" => ""
  | String c r =>
      if carriage_return c then
        match r with
        | "" => ""
        | String d _ =>
            if newline d then normalize r else String c (normalize r)
        end
      else String c (normalize r)
  end.

(** Where the reader stands inside the input.  [fields] are the fields
    of the current record read so far, [field] the bytes of the current
    field, reversed. *)
Inductive state : Type :=
  | FieldStart (line_start : bool) (fields : list string)
  | Bare (fields : list string) (field : string)
  | Quoted (fields : list string) (field : string)
  | QuoteSeen (fields : list string) (field : string)
  | Discard (fields : list string) (e : ParseError).

(** One value per call of [Read] that does not return [io.EOF]: the
    record, and the parse error returned with it (the record then holds
    the fields read before the error). *)
Definition row : Type := list string * option ParseError.

Fixpoint read (st : state) (s : string) : list row :=
  match s with
  | "" =>
      match st with
      | FieldStart true _ => []
      | FieldStart false fields => [(fields ++ [""], None)]
      | Bare fields field => [(fields ++ [String.rev field], None)]
      | Quoted fields _ => [(fields, Some ErrQuote)]
      | QuoteSeen fields field => [(fields ++ [String.rev field], None)]
      | Discard fields e => [(fields, Some e)]
      end
  | String a r =>
      match st with
      | FieldStart line_start fields =>
          if newline a then
            if line_start then read (FieldStart true []) r
            else (fields ++ [""], None) :: read (FieldStart true []) r
          else if space1 a then read (FieldStart false fields) r
          else if quote a then read (Quoted fields "") r
          else if comma a then read (FieldStart false (fields ++ [""])) r
          else
            match r with
            | String b r2 =>
                if space2 a b then read (FieldStart false fields) r2
                else
                  match r2 with
                  | String c r3 =>
                      if space3 a b c then read (FieldStart false fields) r3
                      else read (Bare fields (String a "")) r
                  | "" => read (Bare fields (String a "")) r
                  end
            | "" => read (Bare fields (String a "")) r
            end
      | Bare fields field =>
          if newline a then
            (fields ++ [String.rev field], None) :: read (FieldStart true []) r
          else if comma a then
            read (FieldStart false (fields ++ [String.rev field])) r
          else if quote a then read (Discard fields ErrBareQuote) r
          else read (Bare fields (String a field)) r
      | Quoted fields field =>
          if quote a then read (QuoteSeen fields field) r
          else read (Quoted fields (String a field)) r
      | QuoteSeen fields field =>
          if quote a then read (Quoted fields (String a field)) r
          else if comma a then
            read (FieldStart false (fields ++ [String.rev field])) r
          else if newline a then
            (fields ++ [String.rev field], None) :: read (FieldStart true []) r
          else read (Discard fields ErrQuote) r
      | Discard fields e =>
          if newline a then (fields, Some e) :: read (FieldStart true []) r
          else read (Discard fields e) r
      end
  end.

(** The rows the successive calls of [Read] return on a reader opened on
    [data], up to [io.EOF]. *)
Definition ReadAll (data : string) : list row :=
  read (FieldStart true []) (normalize data).

End csv.

(** ** [time]: instants, durations and the parsing of
    [2006-01-02 15:04:05] *)

Module time.
Import GoString.
Local Open Scope Z_scope.

(** A [Time] is modelled by the instant it denotes, in nanoseconds since
    January 1 of year 1, 00:00:00 UTC, which is the zero [Time].  The
    saturation of [Time.Add] at the ends of the 64-bit range of seconds
    is outside the model. *)
Definition Time : Type := Z.
Definition zero : Time := 0.

(** A [Duration] is an [int64] count of nanoseconds. *)
Definition Duration : Type := Z.

Definition wrap64 (z : Z) : Z := (z + 2 ^ 63) mod 2 ^ 64 - 2 ^ 63.

Definition Second : Duration := 1000000000.
Definition Minute : Duration := 60 * Second.

(** The product of two [Duration]s, as [int64] multiplication. *)
Definition mul (a b : Duration) : Duration := wrap64 (a * b).

Definition Add (t : Time) (d : Duration) : Time := t + d.
Definition Before (t u : Time) : bool := t <? u.

Arguments mul (a b)%_Z.
Arguments Add (t d)%_Z.
Arguments Before (t u)%_Z.

(** A [Location] is what [Date] asks of it: for a Unix time in seconds,
    the offset east of UTC in force and the span [start, end) of Unix
    times over which that offset holds. *)
Record Location : Type := { lookup : Z -> Z * Z * Z }.

Definition UTC : Location :=
  {| lookup := fun _ => (0, - 2 ^ 63, 2 ^ 63 - 1) |}.

Definition isDigit (c : ascii) : bool := (48 <=? byte c) && (byte c <=? 57).
Definition digitVal (c : ascii) : Z := byte c - 48.

(** [getnum(s, fixed)]: one or two leading digits, exactly two when
    [fixed]. *)
Definition getnum (s : string) (fixed : bool) : option (Z * string) :=
  match s with
  | String a r =>
      if isDigit a then
        match r with
        | String b r2 =>
            if isDigit b then Some (digitVal a * 10 + digitVal b, r2)
            else if fixed then None else Some (digitVal a, r)
        | "" => if fixed then None else Some (digitVal a, r)
        end
      else None
  | "" => None
  end.

(** The four digits of [stdLongYear]. *)
Definition getyear (s : string) : option (Z * string) :=
  match s with
  | String a (String b (String c (String d r))) =>
      if isDigit a && isDigit b && isDigit c && isDigit d
      then Some (((digitVal a * 10 + digitVal b) * 10 + digitVal c) * 10
                 + digitVal d, r)
      else None
  | _ => None
  end.

(** [skip(value, prefix)] for a one-byte [prefix] other than a space. *)
Definition skip_byte (n : Z) (s : string) : option string :=
  match s with
  | String a r => if byte a =? n then Some r else None
  | "" => None
  end.

Fixpoint cutspace (s : string) : string :=
  match s with
  | String a r => if byte a =? 32 then cutspace r else s
  | "" => ""
  end.

(** [skip(value, " ")]: a space of the layout stands for any run of
    spaces of the value, and for the end of the value. *)
Definition skip_space (s : string) : option string :=
  match s with
  | String a _ => if byte a =? 32 then Some (cutspace s) else None
  | "" => Some ""
  end.

(** The run of digits that starts [s], as ([count], [value] of the first
    [keep] digits, rest). *)
Fixpoint digits (s : string) (keep : nat) (count n : Z) : Z * Z * string :=
  match s with
  | String a r =>
      if isDigit a then
        match keep with
        | S k => digits r k (count + 1) (n * 10 + digitVal a)
        | O => digits r O count n
        end
      else (count, n, s)
  | "" => (count, n, s)
  end.

(** A fractional second in the value that the layout does not announce:
    a period or a comma and at least one digit; nine digits count. *)
Definition fraction (s : string) : Z * string :=
  match s with
  | String a (String b _ as r) =>
      if ((byte a =? 46) || (byte a =? 44)) && isDigit b then
        let '(count, n, rest) := digits r 9 0 0 in
        (n * 10 ^ (9 - count), rest)
      else (0, s)
  | _ => (0, s)
  end.

Definition isLeap (year : Z) : bool :=
  (year mod 4 =? 0) && (negb (year mod 100 =? 0) || (year mod 400 =? 0)).

Definition daysIn (month year : Z) : Z :=
  if (month =? 2) && isLeap year then 29
  else nth (Z.to_nat (month - 1))
         [31; 28; 31; 30; 31; 30; 31; 31; 30; 31; 30; 31] 0.

Definition daysBefore (month : Z) : Z :=
  nth (Z.to_nat (month - 1))
    [0; 31; 59; 90; 120; 151; 181; 212; 243; 273; 304; 334] 0.

Definition unixToInternal : Z := 62135596800.

(** [Date(year, month, day, hour, min, sec, nsec, loc)] for values in
    their normal ranges. *)
Definition Date (year month day hour min sec nsec : Z) (loc : Location)
  : Time :=
  let y := year - 1 in
  let d := 365 * y + y / 4 - y / 100 + y / 400
           + daysBefore month
           + (if isLeap year && (3 <=? month) then 1 else 0)
           + (day - 1) in
  let unix := d * 86400 + hour * 3600 + min * 60 + sec - unixToInternal in
  let '(offset, start, end_) := lookup loc unix in
  let offset :=
    if offset =? 0 then 0
    else
      let utc := unix - offset in
      if (utc <? start) || (utc >=? end_)
      then fst (fst (lookup loc utc)) else offset in
  (unix - offset + unixToInternal) * 1000000000 + nsec.

Definition in_range (lo x hi : Z) : option unit :=
  if (lo <=? x) && (x <=? hi) then Some tt else None.

(** The fields of a value read by the layout [2006-01-02 15:04:05]. *)
Definition parse (value : string) (loc : Location) : option Time :=
  '(year, value) ← getyear value;
  value ← skip_byte 45 value;
  '(month, value) ← getnum value true;
  _ ← in_range 1 month 12;
  value ← skip_byte 45 value;
  '(day, value) ← getnum value true;
  value ← skip_space value;
  '(hour, value) ← getnum value false;
  _ ← in_range 0 hour 23;
  value ← skip_byte 58 value;
  '(min, value) ← getnum value true;
  _ ← in_range 0 min 59;
  value ← skip_byte 58 value;
  '(sec, value) ← getnum value true;
  _ ← in_range 0 sec 59;
  let '(nsec, value) := fraction value in
  match value with
  | "" =>
      _ ← in_range 1 day (daysIn month year);
      Some (Date year month day hour min sec nsec loc)
  | _ => None
  end.

Inductive ParseError : Type := BadValue.

(** [time.ParseInLocation("2006-01-02 15:04:05", value, loc)]: on an
    error the [Time] returned is the zero [Time]. *)
Definition ParseInLocation (value : string) (loc : Location)
  : Time * option ParseError :=
  match parse value loc with
  | Some t => (t, None)
  | None => (zero, Some BadValue)
  end.

End time.

(** ** The records of the program *)

Module AccessPoint.
Record t : Type := Build {
  MAC : string;
  FirstSeen : time.Time;
  LastSeen : time.Time;
  Channel : Z;
  Speed : string;
  Privacy : string;
  Authentication : string;
  Power : Z;
  Name : string
}.
End AccessPoint.

Module Client.
Record t : Type := Build {
  MAC : string;
  FirstSeen : time.Time;
  LastSeen : time.Time;
  Power : Z;
  Packets : Z;
  BSSID : string;
  Probes : string;
  Organization : string
}.

Definition with_Organization (c : t) (o : string) : t :=
  Build (MAC c) (FirstSeen c) (LastSeen c) (Power c) (Packets c) (BSSID c)
    (Probes c) o.
End Client.

(** [m[k]] on a Go map: the empty string for a key that is absent (and for
    every key of a nil map). *)
Definition map_get (m : gmap string string) (k : string) : string :=
  default "" (m !! k).

(** ** [filterByLastSeen]

    [time.Now()] is called once per client: [now k] is what the [k]-th
    call returns. *)

Fixpoint filterByLastSeen_from (now : nat -> time.Time) (k : nat)
  (clients : list Client.t) (mins : Z) (results : list Client.t)
  : list Client.t :=
  match clients with
  | [] => results
  | client :: rest =>
      let t :=
        time.Add (now k)
          (time.mul (time.mul (-1) (time.wrap64 mins)) time.Minute) in
      filterByLastSeen_from now (S k) rest mins
        (if time.Before t (Client.LastSeen client)
         then results ++ [client] else results)
  end.

Definition filterByLastSeen (now : nat -> time.Time) (clients : list Client.t)
  (mins : Z) : list Client.t :=
  filterByLastSeen_from now 0 clients mins [].

(** ** [isLocalMAC] *)

Definition isLocalMAC (MAC : string) : result bool :=
  s ← GoString.slice_to MAC 2;
  let '(first, _) := strconv.ParseInt s 16 32 in
  if (Z.land (Z.shiftr first 1) 1 =? 1)%Z then Ok true else Ok false.

Section Parser.

(** The two registries, built once when the program starts, and the
    local time zone. *)
Variables ouidb ciddb : gmap string string.
Variable local : time.Location.

(** ** [getAPData] *)

Definition accessPoint_of (record : list string) : result AccessPoint.t :=
  r1 ← GoString.index record 1;
  let '(firstSeen, _) := time.ParseInLocation (GoString.TrimSpace r1) local in
  r2 ← GoString.index record 2;
  let '(lastSeen, _) := time.ParseInLocation (GoString.TrimSpace r2) local in
  r3 ← GoString.index record 3;
  let '(channel, _) := strconv.Atoi (GoString.TrimSpace r3) in
  r8 ← GoString.index record 8;
  let '(power, _) := strconv.Atoi (GoString.TrimSpace r8) in
  r0 ← GoString.index record 0;
  r4 ← GoString.index record 4;
  r5 ← GoString.index record 5;
  r7 ← GoString.index record 7;
  r13 ← GoString.index record 13;
  Ok (AccessPoint.Build (GoString.ReplaceAll r0 ":" "-") firstSeen lastSeen
        channel r4 r5 r7 power r13).

Fixpoint getAPData_from (rows : list csv.row) (i : nat)
  (aps : list AccessPoint.t) : result (list AccessPoint.t) :=
  match rows with
  | [] => Ok aps
  | (record, _) :: rest =>
      if negb (i =? 0)%nat then
        if (length record <? 14)%nat then getAPData_from rest i aps
        else
          ap ← accessPoint_of record;
          getAPData_from rest (S i) (aps ++ [ap])
      else getAPData_from rest (S i) aps
  end.

Definition getAPData (data : string) : result (list AccessPoint.t) :=
  getAPData_from (csv.ReadAll data) 0 [].

(** ** [getClientsData] *)

Definition client_of (record : list string) : result Client.t :=
  r1 ← GoString.index record 1;
  let '(firstSeen, _) := time.ParseInLocation (GoString.TrimSpace r1) local in
  r2 ← GoString.index record 2;
  let '(lastSeen, _) := time.ParseInLocation (GoString.TrimSpace r2) local in
  r3 ← GoString.index record 3;
  let '(power, _) := strconv.Atoi (GoString.TrimSpace r3) in
  r4 ← GoString.index record 4;
  let '(packets, _) := strconv.Atoi (GoString.TrimSpace r4) in
  r0 ← GoString.index record 0;
  r5 ← GoString.index record 5;
  r6 ← GoString.index record 6;
  Ok (Client.Build (GoString.ReplaceAll r0 ":" "-") firstSeen lastSeen power
        packets r5 r6 "").

(** The enrichment of a client with the organization of its address. *)
Definition enrich (c : Client.t) : result Client.t :=
  is_local ← isLocalMAC (Client.MAC c);
  if is_local : bool then
    prefix ← GoString.slice_to (Client.MAC c) 8;
    let cid := GoString.TrimSpace (map_get ciddb prefix) in
    if negb (String.eqb cid "") then Ok (Client.with_Organization c cid)
    else Ok (Client.with_Organization c "LOCAL")
  else
    prefix ← GoString.slice_to (Client.MAC c) 8;
    let oui := GoString.TrimSpace (map_get ouidb prefix) in
    Ok (Client.with_Organization c oui).

Fixpoint getClientsData_from (rows : list csv.row) (clients : list Client.t)
  : result (list Client.t) :=
  match rows with
  | [] => Ok clients
  | (record, _) :: rest =>
      if (length record <? 7)%nat then getClientsData_from rest clients
      else
        c ← client_of record;
        c ← enrich c;
        getClientsData_from rest (clients ++ [c])
  end.

Definition getClientsData (data : string) : result (list Client.t) :=
  getClientsData_from (csv.ReadAll data) [].

(** ** [parseAirodumpCsv] *)

Definition marker : string :=
  "Station MAC, First time seen, Last time seen, Power, # packets, BSSID, Probed ESSIDs".

(** [files] maps the path of every readable file to its content. *)
Definition parseAirodumpCsv (files : gmap string string) (file : string)
  : result (list AccessPoint.t * list Client.t) :=
  match files !! file with
  | None => Ok ([], [])
  | Some s =>
      let csvdata := GoString.Split s marker in
      d0 ← GoString.index csvdata 0;
      accessPoints ← getAPData d0;
      d1 ← GoString.index csvdata 1;
      clients ← getClientsData d1;
      Ok (accessPoints, clients)
  end.

(** ** [getData] and the published lists *)

Record store : Type := Store {
  apsFound : list AccessPoint.t;
  clientsFound : list Client.t
}.

(** One turn of the loop of [getData]: both variables are assigned what
    [parseAirodumpCsv] returns.  A panic ends the process. *)
Definition getData_cycle (files : gmap string string) (csvFile : string)
  (st : store) : result store :=
  '(aps, clients) ← parseAirodumpCsv files csvFile;
  Ok (Store aps clients).

(** The turns of the loop taken while the file system goes through the
    states [history], one per turn. *)
Fixpoint getData (history : list (gmap string string)) (csvFile : string)
  (st : store) : result store :=
  match history with
  | [] => Ok st
  | files :: later =>
      st' ← getData_cycle files csvFile st;
      getData later csvFile st'
  end.

End Parser.

(** ** Vocabulary of the statements *)

(** The map of a function that may panic over a list, from the left: the
    first panic is the outcome. *)
Fixpoint mapM {A B : Type} (f : A -> result B) (l : list A)
  : result (list B) :=
  match l with
  | [] => Ok []
  | a :: rest => b ← f a; bs ← mapM f rest; Ok (b :: bs)
  end.

(** The records the reader returns over a section of the dump. *)
Definition records (data : string) : list (list string) :=
  map fst (csv.ReadAll data).

Definition has_columns (n : nat) (record : list string) : bool :=
  (n <=? length record)%nat.

(** Column [k] of a record that has one. *)
Definition column (record : list string) (k : nat) : string :=
  nth k record "".

(** What the two parsers make of a column: the value the library call
    returns, with or without an error. *)
Definition timestamp (local : time.Location) (s : string) : time.Time :=
  fst (time.ParseInLocation (GoString.TrimSpace s) local).

Definition integer (s : string) : Z :=
  fst (strconv.Atoi (GoString.TrimSpace s)).

(** The access point read from a record of at least 14 columns. *)
Definition accessPoint_values (local : time.Location) (record : list string)
  : AccessPoint.t :=
  {| AccessPoint.MAC := GoString.ReplaceAll (column record 0) ":" "-";
     AccessPoint.FirstSeen := timestamp local (column record 1);
     AccessPoint.LastSeen := timestamp local (column record 2);
     AccessPoint.Channel := integer (column record 3);
     AccessPoint.Speed := column record 4;
     AccessPoint.Privacy := column record 5;
     AccessPoint.Authentication := column record 7;
     AccessPoint.Power := integer (column record 8);
     AccessPoint.Name := column record 13 |}.

(** The client read from a record of at least 7 columns, before its
    organization is looked up. *)
Definition client_values (local : time.Location) (record : list string)
  : Client.t :=
  {| Client.MAC := GoString.ReplaceAll (column record 0) ":" "-";
     Client.FirstSeen := timestamp local (column record 1);
     Client.LastSeen := timestamp local (column record 2);
     Client.Power := integer (column record 3);
     Client.Packets := integer (column record 4);
     Client.BSSID := column record 5;
     Client.Probes := column record 6;
     Client.Organization := "" |}.



(** The clients of a list with their positions: the client at position
    [k] is filtered with the [k]-th reading of the clock. *)
Definition indexed_from (k : nat) (clients : list Client.t)
  : list (nat * Client.t) :=
  combine (seq k (length clients)) clients.

(** The test of the claim, with unbounded integers: the client was last
    seen strictly after the reading of the clock less [mins] minutes. *)
Definition seen_within (now : nat -> time.Time) (mins : Z)
  (kc : nat * Client.t) : bool :=
  (now (fst kc) - mins * 60 * 1000000000 <? Client.LastSeen (snd kc))%Z.

(** The largest number of minutes that is a [Duration]:
    [max_window * 60 * 10^9 <= 2^63 - 1 < (max_window + 1) * 60 * 10^9]. *)
Definition max_window : Z := 153722867.

(** The two sections of a dump: what stands before the first marker line,
    and what stands between it and the next one, or the end. *)
Definition accessPoint_section (s : string) : string :=
  nth 0 (GoString.Split s marker) "".

Definition client_section (s : string) : string :=
  nth 1 (GoString.Split s marker) "".

(** The data rows of a dump: the records of the access-point section
    after its header, and the records of the client section. *)
Definition accessPoint_rows (s : string) : list (list string) :=
  tl (records (accessPoint_section s)).

Definition client_rows (s : string) : list (list string) :=
  records (client_section s).

Definition parses_timestamp (local : time.Location) (s : string) : Prop :=
  snd (time.ParseInLocation (GoString.TrimSpace s) local) = None.

Definition parses_integer (s : string) : Prop :=
  snd (strconv.Atoi (GoString.TrimSpace s)) = None.

(** A well-formed access-point row: at least 14 columns, of which the
    timestamps and the integers parse. *)
Definition wellFormed_accessPoint_row (local : time.Location)
  (record : list string) : Prop :=
  (14 <= length record)%nat
  /\ parses_timestamp local (column record 1)
  /\ parses_timestamp local (column record 2)
  /\ parses_integer (column record 3)
  /\ parses_integer (column record 8).

(** A well-formed client row: at least 7 columns, of which the timestamps
    and the integers parse, and the address has the 8 bytes of its
    prefix. *)
Definition wellFormed_client_row (local : time.Location)
  (record : list string) : Prop :=
  (7 <= length record)%nat
  /\ (8 <= GoString.len (column record 0))%nat
  /\ parses_timestamp local (column record 1)
  /\ parses_timestamp local (column record 2)
  /\ parses_integer (column record 3)
  /\ parses_integer (column record 4).

(** ** Sample dumps *)

Definition csvFile : string := "dump-01.csv".

(** The end-to-end scenario: the marker line, one access-point row of 14
    columns after the header of its section, and one client row. *)
Definition scenario_dump : string :=
"BSSID, First time seen, Last time seen, channel, Speed, Privacy, Cipher, Authentication, Power, # beacons, # IV, LAN IP, ID-length, ESSID
00:11:22:33:44:55, 2024-01-01 09:00:00, 2024-01-01 10:05:00, 6, 54, WPA2, CCMP, PSK, -50, 10, 0, 0.0.0.0, 4, home
Station MAC, First time seen, Last time seen, Power, # packets, BSSID, Probed ESSIDs
AA:BB:CC:DD:EE:FF, 2024-01-01 10:00:00, 2024-01-01 10:05:00, -40, 12, (not associated), 
".

(** A dump whose rows have enough columns, with timestamps and integers
    that do not parse. *)
Definition unparsed_dump : string :=
"BSSID, First time seen, Last time seen, channel, Speed, Privacy, Cipher, Authentication, Power, # beacons, # IV, LAN IP, ID-length, ESSID
00:11:22:33:44:55, never, never, six, 54, WPA2, CCMP, PSK, strong, 10, 0, 0.0.0.0, 4, home
Station MAC, First time seen, Last time seen, Power, # packets, BSSID, Probed ESSIDs
02:00:00:00:00:01, never, never, weak, many, (not associated), 
".

(** A dump without the line that starts the client section. *)
Definition markerless_dump : string :=
"BSSID, First time seen, Last time seen, channel, Speed, Privacy, Cipher, Authentication, Power, # beacons, # IV, LAN IP, ID-length, ESSID
00:11:22:33:44:55, 2024-01-01 09:00:00, 2024-01-01 10:05:00, 6, 54, WPA2, CCMP, PSK, -50, 10, 0, 0.0.0.0, 4, home
".


(** A dump whose client row has 7 columns and an address of 5 bytes. *)
Definition short_address_dump : string :=
"BSSID, First time seen, Last time seen, channel, Speed, Privacy, Cipher, Authentication, Power, # beacons, # IV, LAN IP, ID-length, ESSID
Station MAC, First time seen, Last time seen, Power, # packets, BSSID, Probed ESSIDs
AA:BB, 2024-01-01 10:00:00, 2024-01-01 10:05:00, -40, 12, (not associated), 
".

Definition sample_accessPoint : AccessPoint.t :=
  {| AccessPoint.MAC := "00-11-22-33-44-55";
     AccessPoint.FirstSeen := time.Date 2024 1 1 9 0 0 0 time.UTC;
     AccessPoint.LastSeen := time.Date 2024 1 1 10 5 0 0 time.UTC;
     AccessPoint.Channel := 6;
     AccessPoint.Speed := "54";
     AccessPoint.Privacy := "WPA2";
     AccessPoint.Authentication := "PSK";
     AccessPoint.Power := (-50)%Z;
     AccessPoint.Name := "home" |}.

Definition sample_client : Client.t :=
  {| Client.MAC := "AA-BB-CC-DD-EE-FF";
     Client.FirstSeen := time.Date 2024 1 1 10 0 0 0 time.UTC;
     Client.LastSeen := time.Date 2024 1 1 10 5 0 0 time.UTC;
     Client.Power := (-40)%Z;
     Client.Packets := 12;
     Client.BSSID := "(not associated)";
     Client.Probes := "";
     Client.Organization := "LOCAL" |}.

(** ** [bufio.Scanner] with its default split function, [ScanLines] *)

Module bufio.
Import GoString.

(** The largest buffer a [Scanner] allocates: a line of this many bytes,
    its line end not counted, stops the scan with [ErrTooLong]. *)
Definition MaxScanTokenSize : N := 65536.

(** [dropCR], on the reversed line. *)
Definition dropCR (reversed : string) : string :=
  match reversed with
  | String c r => if (byte c =? 13)%Z then r else reversed
  | "" => ""
  end.

(** The lines the successive calls of [Scan] make available to [Text],
    until [Scan] returns [false]: at the end of the input or at a line
    that is too long.  [cur] holds the [n] bytes of the line being read,
    reversed. *)
Fixpoint Scan_from (s cur : string) (n : N) : list string :=
  match s with
  | "" => if (n =? 0)%N then [] else [String.rev (dropCR cur)]
  | String c r =>
      if (byte c =? 10)%Z then String.rev (dropCR cur) :: Scan_from r "" 0
      else if (MaxScanTokenSize <=? n + 1)%N then []
      else Scan_from r (String c cur) (n + 1)
  end.

Definition Scan (s : string) : list string := Scan_from s "" 0.

End bufio.

(** ** [parseOui] and [parseCid] *)

(** The separators of the two registry files: three spaces, [(hex)] and
    two tabs; 22 spaces, [(hex)] and 25 spaces. *)
Definition oui_separator : string :=
  "   (hex)" +:+ String "009" (String "009" "").

Definition cid_separator : string :=
  "                      (hex)                         ".

(** The loop over the lines of a registry file, which is the same in the
    two functions but for the separator. *)
Fixpoint registry_from (separator : string) (lines : list string)
  (registry : gmap string string) : result (gmap string string) :=
  match lines with
  | [] => Ok registry
  | line :: rest =>
      if GoString.Contains line "(hex)" then
        let str := GoString.Split line separator in
        key ← GoString.index str 0;
        name ← GoString.index str 1;
        registry_from separator rest (<[key := name]> registry)
      else registry_from separator rest registry
  end.

(** [files] maps the path of every file that can be opened to its
    content; [dir] is the directory of the program.  A file that cannot
    be opened leaves the registry nil, which reads like an empty one. *)
Definition parseOui (files : gmap string string) (dir : string)
  : result (gmap string string) :=
  match files !! (dir +:+ "/public/oui.txt") with
  | None => Ok ∅
  | Some text => registry_from oui_separator (bufio.Scan text) ∅
  end.

Definition parseCid (files : gmap string string) (dir : string)
  : result (gmap string string) :=
  match files !! (dir +:+ "/public/cid.txt") with
  | None => Ok ∅
  | Some text => registry_from cid_separator (bufio.Scan text) ∅
  end.

(** ** Vocabulary of the further statements *)

(** The lines of a registry file that hold an entry, and the entry a line
    holds: what stands before the first separator and what stands between
    it and the next one, or the end of the line. *)
Definition hex_lines (lines : list string) : list string :=
  List.filter (fun line => GoString.Contains line "(hex)") lines.

Definition entry (separator line : string) : string * string :=
  (nth 0 (GoString.Split line separator) "",
   nth 1 (GoString.Split line separator) "").

(** The entries of the lines of a registry file, in their order. *)
Definition entries (separator : string) (lines : list string)
  : list (string * string) :=
  map (entry separator) (hex_lines lines).

(** A string is bordered when one of its proper suffixes, not empty, is
    also a prefix of it: two occurrences of it can then overlap. *)
Fixpoint suffix_from (k : nat) (s : string) : string :=
  match k, s with
  | S k', String _ r => suffix_from k' r
  | _, _ => s
  end.

Definition bordered (s : string) : bool :=
  existsb (fun k => GoString.HasPrefix s (suffix_from k s))
    (seq 1 (GoString.len s - 1)).

(** A client without its organization. *)
Definition unresolved (c : Client.t) : Client.t :=
  Client.with_Organization c "".

(** The duration [filterByLastSeen] adds to the reading of the clock. *)
Definition window_offset (mins : Z) : time.Duration :=
  time.mul (time.mul (-1) (time.wrap64 mins)) time.Minute.

(** The test [filterByLastSeen] makes of the client at position [k]. *)
Definition recently_seen (now : nat -> time.Time) (mins : Z)
  (kc : nat * Client.t) : bool :=
  time.Before (time.Add (now (fst kc)) (window_offset mins))
    (Client.LastSeen (snd kc)).

(** A text without double quotes that is empty or ends with a newline:
    the csv reader is at the start of a line when it has read it. *)
Fixpoint quote_free (s : string) : bool :=
  match s with
  | "" => true
  | String c r => negb (csv.quote c) && quote_free r
  end.

Fixpoint ends_line (s : string) : bool :=
  match s with
  | "" => true
  | String c "" => csv.newline c
  | String _ r => ends_line r
  end.

Definition whole_lines (s : string) : Prop :=
  quote_free s = true /\ ends_line s = true.

(** Two outcomes of [getClientsData] that differ in the organizations at
    most. *)
Definition same_but_organization (r1 r2 : result (list Client.t)) : Prop :=
  match r1, r2 with
  | Ok cs1, Ok cs2 => map unresolved cs1 = map unresolved cs2
  | Panic p1, Panic p2 => p1 = p2
  | _, _ => False
  end.

(** A line of a registry file that holds [(hex)] without the separator
    of the file. *)
Definition broken_line (separator line : string) : bool :=
  GoString.Contains line "(hex)" && negb (GoString.Contains line separator).

Definition oui_path (dir : string) : string := dir +:+ "/public/oui.txt".
Definition cid_path (dir : string) : string := dir +:+ "/public/cid.txt".

(** Two small registry files: a header line, two entries of the same key
    and one of another key; and a file whose entry line holds [(hex)]
    between single spaces. *)
Definition sample_oui_text : string :=
  "OUI/MA-L                                                    Organization
" +:+ "00-11-22" +:+ oui_separator +:+ "Old Name
" +:+ "AA-BB-CC" +:+ oui_separator +:+ "Other Corp
" +:+ "00-11-22" +:+ oui_separator +:+ "Acme Corp  
".

Definition sample_cid_text : string :=
  "AA-BB-CC" +:+ cid_separator +:+ "Local Corp
".

Definition broken_oui_text : string :=
  "00-11-22 (hex) Acme Corp
".

Definition sample_files (dir : string) : gmap string string :=
  {[ oui_path dir := sample_oui_text; cid_path dir := sample_cid_text ]}.

Definition sample_ouidb : gmap string string :=
  {[ "00-11-22" := "Acme Corp  "; "AA-BB-CC" := "Other Corp" ]}.

Definition sample_ciddb : gmap string string :=
  {[ "AA-BB-CC" := "Local Corp" ]}.

(** A client with a globally assigned address. *)
Definition global_client : Client.t :=
  {| Client.MAC := "00-11-22-33-44-55";
     Client.FirstSeen := time.Date 2024 1 1 10 0 0 0 time.UTC;
     Client.LastSeen := time.Date 2024 1 1 10 5 0 0 time.UTC;
     Client.Power := (-40)%Z;
     Client.Packets := 12;
     Client.BSSID := "(not associated)";
     Client.Probes := "";
     Client.Organization := "" |}.

(** The states the reader is in outside a quoted field. *)
Definition open_state (st : csv.state) : Prop :=
  match st with
  | csv.FieldStart _ _ | csv.Bare _ _ => True
  | _ => False
  end.

(** Two more rows for a client section: the row of [global_client], and a
    row of five columns. *)
Definition global_client_row : string :=
"00:11:22:33:44:55, 2024-01-01 10:00:00, 2024-01-01 10:05:00, -40, 12, (not associated), 
".

Definition five_column_row : string :=
"00:11:22:33:44:55, 2024-01-01 10:00:00, 2024-01-01 10:05:00, -40, 12
".

(** A record of the client section that [getClientsData] reads and cannot
    enrich: at least 7 columns, and an address of fewer than 8 bytes. *)
Definition short_address_row (record : list string) : bool :=
  has_columns 7 record && (GoString.len (column record 0) <? 8)%nat.

(** * Properties *)

(** ** Splitting and replacing *)

Lemma Contains_empty (sep : string) :
  sep <> "" -> GoString.Contains "" sep = false.
Proof. intros H. destruct sep; [now destruct H | reflexivity]. Qed.

Lemma Split_from_not_nil (sep s : string) (skip : nat) (cur : string) :
  GoString.Split_from sep s skip cur <> [].
Proof.
  revert skip cur.
  induction s as [|c s IH]; intros skip cur; cbn [GoString.Split_from].
  - discriminate.
  - destruct skip as [|k]; [|apply IH].
    destruct (GoString.HasPrefix (String c s) sep); [discriminate | apply IH].
Qed.

(** Without an occurrence of the separator, [Split] returns the whole
    string as its one piece. *)
Lemma Split_from_absent (sep s cur : string) :
  GoString.Contains s sep = false ->
  GoString.Split_from sep s 0 cur = [String.rev_app cur s].
Proof.
  revert cur. induction s as [|c s IH]; intros cur H; [reflexivity|].
  cbn [GoString.Contains] in H. apply orb_false_iff in H as [Hp Hc].
  cbn [GoString.Split_from]. rewrite Hp. rewrite IH by exact Hc. reflexivity.
Qed.

Lemma Split_absent (s sep : string) :
  GoString.Contains s sep = false -> GoString.Split s sep = [s].
Proof. intros H. unfold GoString.Split. now rewrite Split_from_absent. Qed.

(** With an occurrence of a non-empty separator, [Split] returns at least
    two pieces. *)
Lemma Split_from_present (sep s cur : string) :
  sep <> "" ->
  GoString.Contains s sep = true ->
  exists a b more, GoString.Split_from sep s 0 cur = a :: b :: more.
Proof.
  intros Hsep. revert cur. induction s as [|c s IH]; intros cur H.
  - rewrite Contains_empty in H by exact Hsep. discriminate.
  - cbn [GoString.Contains] in H. cbn [GoString.Split_from].
    destruct (GoString.HasPrefix (String c s) sep) eqn:Hp.
    + pose proof (Split_from_not_nil sep s (GoString.len sep - 1) "") as Hn.
      destruct (GoString.Split_from sep s (GoString.len sep - 1) "")
        as [|b more]; [congruence | eauto].
    + simpl in H. apply IH. exact H.
Qed.

Lemma Split_present (s sep : string) :
  sep <> "" ->
  GoString.Contains s sep = true ->
  exists a b more, GoString.Split s sep = a :: b :: more.
Proof. intros; now apply Split_from_present. Qed.

(** Replacing each colon by a hyphen keeps the length and leaves no
    colon. *)
Lemma ReplaceAll_colon_cons (c : ascii) (s : string) :
  GoString.ReplaceAll (String c s) ":" "-" =
  String (if Ascii.eqb ":" c then "-"%char else c)
    (GoString.ReplaceAll s ":" "-").
Proof.
  unfold GoString.ReplaceAll. cbn [GoString.ReplaceAll_from GoString.HasPrefix].
  destruct (Ascii.eqb ":" c); reflexivity.
Qed.

Lemma ReplaceAll_colon_len (s : string) :
  GoString.len (GoString.ReplaceAll s ":" "-") = GoString.len s.
Proof.
  induction s as [|c s IH]; [reflexivity|].
  rewrite ReplaceAll_colon_cons. unfold GoString.len in *. simpl.
  now rewrite IH.
Qed.

Lemma ReplaceAll_colon_free (s : string) :
  GoString.Contains (GoString.ReplaceAll s ":" "-") ":" = false.
Proof.
  induction s as [|c s IH]; [reflexivity|].
  rewrite ReplaceAll_colon_cons. cbn [GoString.Contains GoString.HasPrefix].
  rewrite IH. destruct (Ascii.eqb ":" c) eqn:E; [reflexivity|].
  rewrite E. reflexivity.
Qed.

(** ** The result monad *)

Lemma mapM_Ok_Forall2 {A B : Type} (f : A -> result B) (l : list A)
  (bs : list B) :
  mapM f l = Ok bs -> Forall2 (fun a b => f a = Ok b) l bs.
Proof.
  revert bs. induction l as [|a l IH]; intros bs H; simpl in H.
  - injection H as <-. constructor.
  - destruct (f a) as [b|p] eqn:Ha; [|discriminate]. simpl in H.
    destruct (mapM f l) as [bs'|p] eqn:Hl; [|discriminate]. simpl in H.
    injection H as <-. constructor; [exact Ha | now apply IH].
Qed.

Lemma mapM_all_Ok {A B : Type} (f : A -> result B) (l : list A) :
  Forall (fun a => exists b, f a = Ok b) l -> exists bs, mapM f l = Ok bs.
Proof.
  induction 1 as [|a l [b Hb] _ [bs Hbs]]; simpl.
  - eauto.
  - rewrite Hb. simpl. rewrite Hbs. simpl. eauto.
Qed.

Lemma mapM_Panic {A B : Type} (f : A -> result B) (l : list A) :
  Exists (fun a => exists p, f a = Panic p) l -> exists p, mapM f l = Panic p.
Proof.
  induction 1 as [a l [p Hp]|a l _ [p Hp]]; simpl.
  - rewrite Hp. simpl. eauto.
  - destruct (f a); simpl; [|eauto]. rewrite Hp. simpl. eauto.
Qed.

(** ** Reading the columns of a record *)

Lemma index_column (record : list string) (k : nat) :
  (k < length record)%nat ->
  GoString.index record k = Ok (column record k).
Proof.
  intros H. unfold GoString.index, column.
  destruct (record !! k) as [s|] eqn:E.
  - f_equal. symmetry. apply nth_lookup_Some with (d := "") in E. exact E.
  - apply lookup_ge_None in E. lia.
Qed.

Lemma index_Ok_nth (l : list string) (k : nat) (x : string) :
  GoString.index l k = Ok x -> x = nth k l "".
Proof.
  unfold GoString.index. destruct (l !! k) as [y|] eqn:E; [|discriminate].
  intros [= <-]. symmetry. now apply nth_lookup_Some.
Qed.

Lemma has_columns_lt (n k : nat) (record : list string) :
  has_columns n record = true -> (k < n)%nat -> (k < length record)%nat.
Proof. unfold has_columns. intros H%Nat.leb_le. lia. Qed.

(** ** The two loops over the records *)

Section ParserFacts.

Variables ouidb ciddb : gmap string string.
Variable local : time.Location.

Lemma accessPoint_of_values (record : list string) :
  has_columns 14 record = true ->
  accessPoint_of local record = Ok (accessPoint_values local record).
Proof.
  intros H. unfold accessPoint_of, accessPoint_values, timestamp, integer.
  rewrite !index_column by (eapply has_columns_lt; [exact H | lia]).
  cbn [mbind result_bind].
  repeat match goal with
         | |- context [let '(_, _) := ?e in _] => destruct e
         end.
  reflexivity.
Qed.

Lemma client_of_values (record : list string) :
  has_columns 7 record = true ->
  client_of local record = Ok (client_values local record).
Proof.
  intros H. unfold client_of, client_values, timestamp, integer.
  rewrite !index_column by (eapply has_columns_lt; [exact H | lia]).
  cbn [mbind result_bind].
  repeat match goal with
         | |- context [let '(_, _) := ?e in _] => destruct e
         end.
  reflexivity.
Qed.

(** After the first record, the loop of [getAPData] keeps every record of
    at least 14 columns and no other. *)
Lemma getAPData_from_later (rows : list csv.row) (i : nat)
  (aps : list AccessPoint.t) :
  i <> 0%nat ->
  getAPData_from local rows i aps =
  Ok (aps ++ map (accessPoint_values local)
               (List.filter (has_columns 14) (map fst rows))).
Proof.
  revert i aps. induction rows as [|[record e] rows IH]; intros i aps Hi.
  - simpl. now rewrite app_nil_r.
  - cbn [getAPData_from map fst List.filter].
    destruct (Nat.eqb_spec i 0) as [->|_]; [congruence|]. cbn [negb].
    unfold has_columns at 1.
    destruct (Nat.ltb_spec (length record) 14) as [Hlt|Hge].
    + replace (14 <=? length record)%nat with false
        by (symmetry; apply Nat.leb_gt; lia).
      now apply IH.
    + assert (Hc : has_columns 14 record = true)
        by (apply Nat.leb_le; lia).
      unfold has_columns in Hc. rewrite Hc.
      rewrite accessPoint_of_values by exact Hc.
      cbn [mbind result_bind]. rewrite IH by lia.
      cbn [map]. now rewrite <- app_assoc.
Qed.

Lemma getAPData_rows (data : string) :
  getAPData local data =
  Ok (map (accessPoint_values local)
        (List.filter (has_columns 14) (tl (records data)))).
Proof.
  unfold getAPData, records.
  destruct (csv.ReadAll data) as [|[header e] rows]; [reflexivity|].
  cbn [getAPData_from Nat.eqb negb map tl].
  now rewrite getAPData_from_later by lia.
Qed.

(** The loop of [getClientsData] reads every record of at least 7 columns
    and no other, up to the first panic. *)
Lemma getClientsData_from_rows (rows : list csv.row) (clients : list Client.t) :
  getClientsData_from ouidb ciddb local rows clients =
  cs ← mapM (fun record => enrich ouidb ciddb (client_values local record))
       (List.filter (has_columns 7) (map fst rows));
  Ok (clients ++ cs).
Proof.
  revert clients. induction rows as [|[record e] rows IH]; intros clients.
  - simpl. now rewrite app_nil_r.
  - cbn [getClientsData_from map fst List.filter].
    unfold has_columns at 1.
    destruct (Nat.ltb_spec (length record) 7) as [Hlt|Hge].
    + replace (7 <=? length record)%nat with false
        by (symmetry; apply Nat.leb_gt; lia).
      apply IH.
    + assert (Hc : has_columns 7 record = true)
        by (apply Nat.leb_le; lia).
      unfold has_columns in Hc. rewrite Hc.
      rewrite client_of_values by exact Hc.
      cbn [mbind result_bind mapM].
      destruct (enrich ouidb ciddb (client_values local record)) as [c|p];
        cbn [mbind result_bind]; [|reflexivity].
      rewrite IH.
      destruct (mapM _ _) as [cs|p]; cbn [mbind result_bind]; [|reflexivity].
      now rewrite <- app_assoc.
Qed.

Lemma getClientsData_rows (data : string) :
  getClientsData ouidb ciddb local data =
  mapM (fun record => enrich ouidb ciddb (client_values local record))
    (List.filter (has_columns 7) (records data)).
Proof.
  unfold getClientsData, records. rewrite getClientsData_from_rows.
  destruct (mapM _ _); reflexivity.
Qed.

End ParserFacts.

(** ** [isLocalMAC] *)



Lemma slice_to_Ok (s : string) (n : nat) :
  (n <= GoString.len s)%nat ->
  GoString.slice_to s n = Ok (GoString.prefix_bytes n s).
Proof.
  intros H. unfold GoString.slice_to.
  now destruct (Nat.leb_spec n (GoString.len s)); [|lia].
Qed.

Lemma slice_to_Panic (s : string) (n : nat) :
  (GoString.len s < n)%nat ->
  GoString.slice_to s n = Panic (SliceBoundsOutOfRange n (GoString.len s)).
Proof.
  intros H. unfold GoString.slice_to.
  now destruct (Nat.leb_spec n (GoString.len s)); [lia|].
Qed.


(** The test [(first>>1)&1 == 1] reads bit 1 of [first]. *)
Lemma second_bit (first : Z) :
  (Z.land (Z.shiftr first 1) 1 =? 1)%Z = Z.testbit first 1.
Proof.
  change 1%Z with (Z.ones 1) at 2. rewrite Z.land_ones by lia.
  change (2 ^ 1)%Z with 2%Z. rewrite <- Z.bit0_mod.
  rewrite Z.shiftr_spec by lia. change (0 + 1)%Z with 1%Z.
  now destruct (Z.testbit first 1).
Qed.

Lemma isLocalMAC_bit (MAC : string) :
  (2 <= GoString.len MAC)%nat ->
  isLocalMAC MAC =
  Ok (Z.testbit (fst (strconv.ParseInt (GoString.prefix_bytes 2 MAC) 16 32)) 1).
Proof.
  intros H. unfold isLocalMAC. rewrite slice_to_Ok by exact H.
  cbn [mbind result_bind].
  destruct (strconv.ParseInt _ 16 32) as [first e]. cbn [fst].
  rewrite second_bit. now destruct (Z.testbit first 1).
Qed.

Lemma isLocalMAC_short (MAC : string) :
  (GoString.len MAC < 2)%nat ->
  isLocalMAC MAC = Panic (SliceBoundsOutOfRange 2 (GoString.len MAC)).
Proof.
  intros H. unfold isLocalMAC. now rewrite slice_to_Panic by exact H.
Qed.


(** ** [enrich] *)

Lemma TrimSpace_empty : GoString.TrimSpace "" = "".
Proof. reflexivity. Qed.

Lemma map_get_absent (m : gmap string string) (k : string) :
  m !! k = None -> map_get m k = "".
Proof. intros H. unfold map_get. now rewrite H. Qed.

Section EnrichFacts.

Variables ouidb ciddb : gmap string string.

(** The organization [enrich] gives to an address of class [is_local]. *)
Lemma enrich_Ok (c : Client.t) :
  (8 <= GoString.len (Client.MAC c))%nat ->
  exists is_local,
    isLocalMAC (Client.MAC c) = Ok is_local /\
    enrich ouidb ciddb c =
    Ok (Client.with_Organization c
          (let prefix := GoString.prefix_bytes 8 (Client.MAC c) in
           if is_local then
             let cid := GoString.TrimSpace (map_get ciddb prefix) in
             if String.eqb cid "" then "LOCAL" else cid
           else GoString.TrimSpace (map_get ouidb prefix))).
Proof.
  intros H. unfold enrich.
  rewrite isLocalMAC_bit by lia.
  eexists; split; [reflexivity|]. cbn [mbind result_bind].
  rewrite slice_to_Ok by exact H. cbn [mbind result_bind].
  destruct (Z.testbit _ 1); [|reflexivity].
  now destruct (String.eqb _ "").
Qed.

Lemma enrich_Panic (c : Client.t) :
  (GoString.len (Client.MAC c) < 8)%nat ->
  exists bound,
    enrich ouidb ciddb c =
    Panic (SliceBoundsOutOfRange bound (GoString.len (Client.MAC c))) /\
    (bound = 2 \/ bound = 8)%nat.
Proof.
  intros H. unfold enrich.
  destruct (Nat.lt_ge_cases (GoString.len (Client.MAC c)) 2) as [H2|H2].
  - rewrite isLocalMAC_short by exact H2. eauto.
  - rewrite isLocalMAC_bit by exact H2. cbn [mbind result_bind].
    rewrite slice_to_Panic by exact H.
    destruct (Z.testbit _ 1); eauto.
Qed.

Lemma enrich_Ok_inv (c c' : Client.t) :
  enrich ouidb ciddb c = Ok c' -> (8 <= GoString.len (Client.MAC c))%nat.
Proof.
  intros H. destruct (Nat.lt_ge_cases (GoString.len (Client.MAC c)) 8) as [L|L];
    [|exact L].
  destruct (enrich_Panic c L) as (bound & E & _). congruence.
Qed.

End EnrichFacts.

(** ** What a failed library call returns *)

Lemma ParseInt_syntax_zero (s : string) (base bitSize : Z) :
  snd (strconv.ParseInt s base bitSize) = Some strconv.ErrSyntax ->
  fst (strconv.ParseInt s base bitSize) = 0%Z.
Proof.
  unfold strconv.ParseInt. destruct s as [|c r]; [reflexivity|].
  destruct (strconv.ParseUint _ base bitSize) as [un [[|]|]];
    cbn [fst snd]; try congruence;
    repeat match goal with
           | |- context [if ?b then _ else _] => destruct b
           end; cbn [fst snd]; congruence.
Qed.

Lemma Atoi_syntax_zero (s : string) :
  snd (strconv.Atoi s) = Some strconv.ErrSyntax -> fst (strconv.Atoi s) = 0%Z.
Proof.
  unfold strconv.Atoi.
  destruct (andb _ _); [|apply ParseInt_syntax_zero].
  destruct s as [|c r]; [reflexivity|].
  destruct (orb _ _); [destruct r as [|d r]; [reflexivity|]|];
    destruct (strconv.Atoi_digits _ 0); cbn [fst snd]; congruence.
Qed.

Lemma ParseInLocation_error_zero (value : string) (loc : time.Location) :
  snd (time.ParseInLocation value loc) <> None ->
  fst (time.ParseInLocation value loc) = time.zero.
Proof.
  unfold time.ParseInLocation. destruct (time.parse value loc); cbn [fst snd]; congruence.
Qed.

(** ** From the list returned to the record read *)

Lemma Forall2_In_r {A B : Type} (R : A -> B -> Prop) (l : list A)
  (l' : list B) (b : B) :
  Forall2 R l l' -> In b l' -> exists a, In a l /\ R a b.
Proof.
  induction 1 as [|a b' l l' Hab _ IH]; intros Hin; [destruct Hin|].
  destruct Hin as [->|Hin].
  - exists a. split; [now left | exact Hab].
  - destruct (IH Hin) as (a' & Ha' & Hr). exists a'. split; [now right | exact Hr].
Qed.

Lemma In_filter_records (n : nat) (record : list string) (data : string) :
  In record (List.filter (has_columns n) (records data)) ->
  In record (records data) /\ has_columns n record = true.
Proof. apply filter_In. Qed.

(** Every client returned was read from a record of at least 7 columns
    and then enriched. *)
Lemma getClientsData_In (ouidb ciddb : gmap string string)
  (local : time.Location) (data : string) (clients : list Client.t)
  (c : Client.t) :
  getClientsData ouidb ciddb local data = Ok clients ->
  In c clients ->
  exists record,
    In record (records data) /\ has_columns 7 record = true /\
    enrich ouidb ciddb (client_values local record) = Ok c.
Proof.
  intros H Hin. rewrite getClientsData_rows in H.
  apply mapM_Ok_Forall2 in H.
  destruct (Forall2_In_r _ _ _ _ H Hin) as (record & Hr & He).
  apply In_filter_records in Hr as [Hr Hc]. eauto.
Qed.

(** ** [filterByLastSeen] *)

Lemma wrap64_small (z : Z) :
  (- 2 ^ 63 <= z < 2 ^ 63)%Z -> time.wrap64 z = z.
Proof.
  intros H. unfold time.wrap64.
  rewrite Z.mod_small by (change (2 ^ 64)%Z with (2 ^ 63 + 2 ^ 63)%Z; lia).
  lia.
Qed.

(** Within [max_window], the duration subtracted is [mins] minutes. *)
Lemma window_duration (mins : Z) :
  (0 <= mins <= max_window)%Z ->
  time.mul (time.mul (-1) (time.wrap64 mins)) time.Minute
  = (- (mins * 60 * 1000000000))%Z.
Proof.
  unfold max_window. intros H. unfold time.mul, time.Minute, time.Second.
  assert (B : (2 ^ 63 = 9223372036854775808)%Z) by reflexivity.
  rewrite (wrap64_small mins) by lia.
  rewrite (wrap64_small (-1 * mins)) by lia.
  rewrite wrap64_small by lia. lia.
Qed.

Lemma filterByLastSeen_from_window (now : nat -> time.Time) (k : nat)
  (clients : list Client.t) (mins : Z) (results : list Client.t) :
  (0 <= mins <= max_window)%Z ->
  filterByLastSeen_from now k clients mins results =
  results ++ map snd (List.filter (seen_within now mins)
                        (indexed_from k clients)).
Proof.
  intros Hm. revert k results.
  induction clients as [|c clients IH]; intros k results.
  - simpl. now rewrite app_nil_r.
  - cbn [filterByLastSeen_from]. rewrite IH, (window_duration mins Hm).
    unfold indexed_from. cbn [length seq combine List.filter].
    unfold seen_within at 2. cbn [fst snd].
    unfold time.Add, time.Before.
    replace (now k + - (mins * 60 * 1000000000))%Z
      with (now k - mins * 60 * 1000000000)%Z by lia.
    destruct (_ <? _)%Z; cbn [map snd]; [now rewrite <- app_assoc | reflexivity].
Qed.

Lemma filter_constant_clock (t : time.Time) (mins : Z) (k : nat)
  (clients : list Client.t) :
  map snd (List.filter (seen_within (fun _ => t) mins) (indexed_from k clients))
  = List.filter
      (fun c => (t - mins * 60 * 1000000000 <? Client.LastSeen c)%Z) clients.
Proof.
  revert k. induction clients as [|c clients IH]; intros k; [reflexivity|].
  unfold indexed_from. cbn [length seq combine List.filter].
  unfold seen_within at 1. cbn [fst snd].
  destruct (_ <? _)%Z; cbn [map snd]; [f_equal|]; apply IH.
Qed.

(** ** [parseAirodumpCsv] on a dump with the marker line *)

Lemma filter_all {A : Type} (f : A -> bool) (l : list A) :
  Forall (fun a => f a = true) l -> List.filter f l = l.
Proof.
  induction 1 as [|a l Ha _ IH]; [reflexivity|].
  cbn [List.filter]. now rewrite Ha, IH.
Qed.

Lemma mapM_Panic_inv {A B : Type} (f : A -> result B) (l : list A) (p : panic) :
  mapM f l = Panic p -> exists a, In a l /\ f a = Panic p.
Proof.
  induction l as [|a l IH]; cbn [mapM]; [discriminate|].
  destruct (f a) as [b|q] eqn:Ha; cbn [mbind result_bind].
  - destruct (mapM f l) as [bs|q]; cbn [mbind result_bind]; [discriminate|].
    intros [= ->]. destruct (IH eq_refl) as (a' & Hin & Hp).
    exists a'. split; [now right | exact Hp].
  - intros [= ->]. exists a. split; [now left | exact Ha].
Qed.

Lemma marker_not_empty : marker <> "".
Proof. discriminate. Qed.

Lemma sections_present (s : string) :
  GoString.Contains s marker = true ->
  exists more,
    GoString.Split s marker
    = accessPoint_section s :: client_section s :: more.
Proof.
  intros H. unfold accessPoint_section, client_section.
  destruct (Split_present s marker marker_not_empty H) as (a & b & more & ->).
  now exists more.
Qed.

(** With the marker line in the dump, [parseAirodumpCsv] is what the two
    parsers return on the two sections. *)
Lemma parseAirodumpCsv_sections (ouidb ciddb : gmap string string)
  (local : time.Location) (files : gmap string string) (file s : string) :
  files !! file = Some s ->
  GoString.Contains s marker = true ->
  parseAirodumpCsv ouidb ciddb local files file =
  clients ← getClientsData ouidb ciddb local (client_section s);
  Ok (map (accessPoint_values local)
        (List.filter (has_columns 14) (accessPoint_rows s)), clients).
Proof.
  intros Hf Hm. unfold parseAirodumpCsv. rewrite Hf.
  destruct (sections_present s Hm) as (more & ->).
  cbn [GoString.index lookup list_lookup mbind result_bind].
  rewrite getAPData_rows. reflexivity.
Qed.

Lemma client_values_MAC_len (local : time.Location) (record : list string) :
  GoString.len (Client.MAC (client_values local record))
  = GoString.len (column record 0).
Proof. apply ReplaceAll_colon_len. Qed.

(** * The claims *)

(** ** C1: rows whose timestamps or integers do not parse *)

(** C1 (as amended).  A timestamp or an integer that fails to parse does
    not make the parsers skip the row.  [getAPData] returns one access
    point for each record after the first that has at least 14 columns,
    [getClientsData] reads one client from each record that has at least
    7 columns; the number of columns is the only test that decides
    whether a row is kept.  In the record of a kept row, a timestamp that
    failed to parse is the zero time and an integer that is not a number
    is 0. *)
Theorem rows_with_unparsed_fields_are_kept
  (ouidb ciddb : gmap string string) (local : time.Location) (data : string) :
  getAPData local data =
    Ok (map (accessPoint_values local)
          (List.filter (has_columns 14) (tl (records data))))
  /\ getClientsData ouidb ciddb local data =
    mapM (fun record => enrich ouidb ciddb (client_values local record))
      (List.filter (has_columns 7) (records data))
  /\ (forall s : string,
        snd (time.ParseInLocation (GoString.TrimSpace s) local) <> None ->
        timestamp local s = time.zero)
  /\ (forall s : string,
        snd (strconv.Atoi (GoString.TrimSpace s)) = Some strconv.ErrSyntax ->
        integer s = 0%Z).
Proof.
  split; [apply getAPData_rows|].
  split; [apply getClientsData_rows|].
  split; intros s H.
  - now apply ParseInLocation_error_zero.
  - now apply Atoi_syntax_zero.
Qed.

(** The theorem at the two sections of [unparsed_dump] and at two of its
    columns. *)
Lemma rows_with_unparsed_fields_are_kept_at_unparsed_dump :
  timestamp time.UTC "never" = time.zero
  /\ integer "weak" = 0%Z
  /\ getAPData time.UTC (accessPoint_section unparsed_dump) =
     Ok (map (accessPoint_values time.UTC)
           (List.filter (has_columns 14)
              (tl (records (accessPoint_section unparsed_dump)))))
  /\ getClientsData ∅ ∅ time.UTC (client_section unparsed_dump) =
     mapM (fun record => enrich ∅ ∅ (client_values time.UTC record))
       (List.filter (has_columns 7) (records (client_section unparsed_dump))).
Proof.
  destruct (rows_with_unparsed_fields_are_kept ∅ ∅ time.UTC
              (accessPoint_section unparsed_dump)) as (Ha & _ & Ht & Hi).
  destruct (rows_with_unparsed_fields_are_kept ∅ ∅ time.UTC
              (client_section unparsed_dump)) as (_ & Hc & _ & _).
  split; [apply Ht; vm_compute; congruence|].
  split; [apply Hi; reflexivity|].
  split; [exact Ha | exact Hc].
Defined.

(** C1 as stated fails: in [unparsed_dump] the timestamps and integers of
    both data rows fail to parse, and both rows are in the lists returned,
    with the zero time and 0 in those fields. *)
Lemma unparsed_row_is_not_skipped :
  snd (time.ParseInLocation (GoString.TrimSpace "never") time.UTC)
    = Some time.BadValue
  /\ snd (strconv.Atoi (GoString.TrimSpace "six")) = Some strconv.ErrSyntax
  /\ snd (strconv.Atoi (GoString.TrimSpace "weak")) = Some strconv.ErrSyntax
  /\ parseAirodumpCsv ∅ ∅ time.UTC {[csvFile := unparsed_dump]} csvFile =
     Ok ([ {| AccessPoint.MAC := "00-11-22-33-44-55";
              AccessPoint.FirstSeen := time.zero;
              AccessPoint.LastSeen := time.zero;
              AccessPoint.Channel := 0;
              AccessPoint.Speed := "54";
              AccessPoint.Privacy := "WPA2";
              AccessPoint.Authentication := "PSK";
              AccessPoint.Power := 0;
              AccessPoint.Name := "home" |} ],
         [ {| Client.MAC := "02-00-00-00-00-01";
              Client.FirstSeen := time.zero;
              Client.LastSeen := time.zero;
              Client.Power := 0;
              Client.Packets := 0;
              Client.BSSID := "(not associated)";
              Client.Probes := "";
              Client.Organization := "LOCAL" |} ]).
Proof. vm_compute. repeat split. Qed.

(** ** C2: a dump without the marker line *)

(** C2 (what the code does).  When the dump does not contain the marker
    line, [strings.Split] returns one piece and [csvdata[1]] panics with
    an index out of range: [parseAirodumpCsv] returns nothing, and the
    loop of [getData] ends there with the process, whatever the dump file
    would have held later. *)
Theorem missing_marker_panics
  (ouidb ciddb : gmap string string) (local : time.Location)
  (files : gmap string string) (file s : string) (st : store) :
  files !! file = Some s ->
  GoString.Contains s marker = false ->
  parseAirodumpCsv ouidb ciddb local files file = Panic (IndexOutOfRange 1 1)
  /\ forall later : list (gmap string string),
       getData ouidb ciddb local (files :: later) file st
       = Panic (IndexOutOfRange 1 1).
Proof.
  intros Hf Hm.
  assert (Hp : parseAirodumpCsv ouidb ciddb local files file
               = Panic (IndexOutOfRange 1 1)).
  { unfold parseAirodumpCsv. rewrite Hf, (Split_absent s marker Hm).
    cbn [GoString.index lookup list_lookup mbind result_bind].
    rewrite getAPData_rows. reflexivity. }
  split; [exact Hp|]. intros later.
  cbn [getData]. unfold getData_cycle. now rewrite Hp.
Qed.

(** The theorem at [markerless_dump]. *)
Lemma missing_marker_panics_at_markerless_dump :
  getData ∅ ∅ time.UTC
    [{[csvFile := markerless_dump]}; {[csvFile := scenario_dump]}] csvFile
    (Store [sample_accessPoint] [sample_client])
  = Panic (IndexOutOfRange 1 1).
Proof.
  apply (missing_marker_panics ∅ ∅ time.UTC {[csvFile := markerless_dump]}
           csvFile markerless_dump); reflexivity.
Defined.

(** ** C3: a dump file that cannot be read *)

(** C3 (as amended).  When the dump file cannot be read,
    [parseAirodumpCsv] returns two empty lists without a panic, and the
    turn of [getData] assigns them: the loop goes on, and both published
    lists are empty, whatever they held before. *)
Theorem unreadable_dump_empties_the_lists
  (ouidb ciddb : gmap string string) (local : time.Location)
  (files : gmap string string) (file : string) (st : store) :
  files !! file = None ->
  parseAirodumpCsv ouidb ciddb local files file = Ok ([], [])
  /\ getData_cycle ouidb ciddb local files file st = Ok (Store [] [])
  /\ forall later : list (gmap string string),
       getData ouidb ciddb local (files :: later) file st
       = getData ouidb ciddb local later file (Store [] []).
Proof.
  intros Hf.
  assert (Hc : getData_cycle ouidb ciddb local files file st
               = Ok (Store [] []))
    by (unfold getData_cycle, parseAirodumpCsv; now rewrite Hf).
  split; [unfold parseAirodumpCsv; now rewrite Hf|].
  split; [exact Hc|]. intros later. cbn [getData]. now rewrite Hc.
Qed.

(** The theorem on a file system without the dump file. *)
Lemma unreadable_dump_empties_the_lists_at_no_file :
  getData_cycle ∅ ∅ time.UTC ∅ csvFile
    (Store [sample_accessPoint] [sample_client])
  = Ok (Store [] []).
Proof.
  refine (proj1 (proj2 (unreadable_dump_empties_the_lists ∅ ∅ time.UTC ∅
                          csvFile (Store [sample_accessPoint] [sample_client])
                          _))).
  apply lookup_empty.
Defined.

(** C3 as stated fails: after a turn of [getData] that could not read the
    dump file, the lists published before are gone. *)
Lemma unreadable_dump_loses_the_snapshot :
  (∅ : gmap string string) !! csvFile = None
  /\ getData_cycle ∅ ∅ time.UTC ∅ csvFile
       (Store [sample_accessPoint] [sample_client])
     <> Ok (Store [sample_accessPoint] [sample_client]).
Proof. split; [reflexivity | vm_compute; discriminate]. Qed.

(** ** C4: the organization of an address whose prefix is in no registry *)

(** C4.  In every client that [getClientsData] returns: when the address
    is locally administered and its first 8 bytes are no key of the CID
    registry, the organization is [LOCAL], and the organization of a
    locally administered address is never empty; when the address is
    globally assigned and its first 8 bytes are no key of the OUI
    registry, the organization is empty. *)
Theorem organization_of_unlisted_prefix
  (ouidb ciddb : gmap string string) (local : time.Location) (data : string)
  (clients : list Client.t) (c : Client.t) :
  getClientsData ouidb ciddb local data = Ok clients ->
  In c clients ->
  (isLocalMAC (Client.MAC c) = Ok true ->
   ciddb !! GoString.prefix_bytes 8 (Client.MAC c) = None ->
   Client.Organization c = "LOCAL")
  /\ (isLocalMAC (Client.MAC c) = Ok true -> Client.Organization c <> "")
  /\ (isLocalMAC (Client.MAC c) = Ok false ->
      ouidb !! GoString.prefix_bytes 8 (Client.MAC c) = None ->
      Client.Organization c = "").
Proof.
  intros H Hin.
  destruct (getClientsData_In _ _ _ _ _ _ H Hin) as (record & _ & _ & He).
  pose proof (enrich_Ok_inv _ _ _ _ He) as Hlen.
  destruct (enrich_Ok ouidb ciddb _ Hlen) as (is_local & Hl & Hc).
  rewrite He in Hc. clear He Hin H.
  set (c0 := client_values local record) in *.
  assert (Hmac : Client.MAC c = Client.MAC c0) by now injection Hc as ->.
  rewrite Hmac, Hl.
  assert (Horg : Client.Organization c =
                 if is_local then
                   if String.eqb
                        (GoString.TrimSpace
                           (map_get ciddb
                              (GoString.prefix_bytes 8 (Client.MAC c0)))) ""
                   then "LOCAL"
                   else GoString.TrimSpace
                          (map_get ciddb
                             (GoString.prefix_bytes 8 (Client.MAC c0)))
                 else GoString.TrimSpace
                        (map_get ouidb
                           (GoString.prefix_bytes 8 (Client.MAC c0))))
    by now injection Hc as ->.
  rewrite Horg. clear Hc Hmac Horg. repeat split.
  - intros [= ->] Hk. now rewrite (map_get_absent _ _ Hk), TrimSpace_empty.
  - intros [= ->].
    destruct (String.eqb_spec
                (GoString.TrimSpace
                   (map_get ciddb (GoString.prefix_bytes 8 (Client.MAC c0))))
                "") as [E|E]; [discriminate | exact E].
  - intros [= ->] Hk. now rewrite (map_get_absent _ _ Hk), TrimSpace_empty.
Qed.

(** The theorem at the client of [scenario_dump], whose address [AA-...]
    is locally administered, with empty registries. *)
Lemma organization_of_unlisted_prefix_at_scenario :
  Client.Organization sample_client = "LOCAL".
Proof.
  refine (proj1 (organization_of_unlisted_prefix ∅ ∅ time.UTC
     "AA:BB:CC:DD:EE:FF, 2024-01-01 10:00:00, 2024-01-01 10:05:00, -40, 12, (not associated), "
     [sample_client] sample_client _ _) _ _);
    first [reflexivity | now left].
Defined.

(** ** C5: the classification of an address *)




(** ** C6: the window of [filterByLastSeen] *)

(** C6 (as amended).  For a window of at most [max_window] = 153722867
    minutes (the largest that is a [Duration]), [filterByLastSeen] keeps,
    in their order, the clients last seen strictly after the reading of
    the clock taken for them less the window; with a clock that stands at
    [t], these are the clients last seen strictly after [t] less the
    window: a client last seen exactly at that instant is left out, one
    last seen a second later is kept. *)
Theorem filterByLastSeen_window
  (now : nat -> time.Time) (clients : list Client.t) (mins : Z) :
  (0 <= mins <= max_window)%Z ->
  filterByLastSeen now clients mins =
    map snd (List.filter (seen_within now mins) (indexed_from 0 clients))
  /\ (forall t : time.Time,
        filterByLastSeen (fun _ => t) clients mins =
        List.filter
          (fun c => (t - mins * 60 * 1000000000 <? Client.LastSeen c)%Z)
          clients)
  /\ (forall (t : time.Time) (c : Client.t),
        Client.LastSeen c = (t - mins * 60 * 1000000000)%Z ->
        filterByLastSeen (fun _ => t) [c] mins = [])
  /\ (forall (t : time.Time) (c : Client.t),
        Client.LastSeen c = (t - mins * 60 * 1000000000 + time.Second)%Z ->
        filterByLastSeen (fun _ => t) [c] mins = [c]).
Proof.
  intros Hm.
  assert (Hc : forall t l,
             filterByLastSeen (fun _ => t) l mins =
             List.filter
               (fun c => (t - mins * 60 * 1000000000 <? Client.LastSeen c)%Z)
               l).
  { intros t l. unfold filterByLastSeen.
    rewrite filterByLastSeen_from_window by exact Hm.
    apply filter_constant_clock. }
  split; [|split; [intros t; apply Hc | split]].
  - unfold filterByLastSeen.
    now rewrite filterByLastSeen_from_window by exact Hm.
  - intros t c Hl. rewrite Hc. cbn [List.filter]. rewrite Hl.
    now rewrite Z.ltb_irrefl.
  - intros t c Hl. rewrite Hc. cbn [List.filter]. rewrite Hl.
    unfold time.Second.
    now destruct (Z.ltb_spec (t - mins * 60 * 1000000000)
                    (t - mins * 60 * 1000000000 + 1000000000)); [|lia].
Qed.

(** The theorem for a window of 5 minutes at 10:10:00, five minutes after
    [sample_client] was last seen. *)
Lemma filterByLastSeen_window_at_sample :
  filterByLastSeen (fun _ => time.Date 2024 1 1 10 10 0 0 time.UTC)
    [sample_client] 5 = [].
Proof.
  refine (proj1 (proj2 (proj2 (filterByLastSeen_window
            (fun _ => time.Date 2024 1 1 10 10 0 0 time.UTC)
            [sample_client] 5 _))) _ _ _);
    [unfold max_window; lia | reflexivity].
Defined.

(** C6 as stated fails for a large window: 153722868 minutes are more than
    a [Duration] holds, the product wraps around to a positive duration,
    and a client last seen one second before the reading of the clock,
    well within the window, is left out. *)
Lemma large_window_excludes_recent_client :
  (0 <= 153722868)%Z
  /\ (time.Date 2024 1 1 10 5 1 0 time.UTC - 153722868 * 60 * 1000000000
      < Client.LastSeen sample_client)%Z
  /\ filterByLastSeen (fun _ => time.Date 2024 1 1 10 5 1 0 time.UTC)
       [sample_client] 153722868 = [].
Proof. vm_compute. repeat split; congruence. Qed.

(** ** C7: the counts of a well-formed dump *)

(** C7.  For a dump that holds the marker line, whose access-point data
    rows are well formed (at least 14 columns, timestamps and integers
    that parse) and whose client rows are well formed (at least 7 columns,
    timestamps and integers that parse, an address that has the 8 bytes of
    its prefix), [parseAirodumpCsv] returns as many access points as the
    access-point section has records after its header, and as many clients
    as the client section has records. *)
Theorem well_formed_dump_counts
  (ouidb ciddb : gmap string string) (local : time.Location)
  (files : gmap string string) (file s : string) :
  files !! file = Some s ->
  GoString.Contains s marker = true ->
  Forall (wellFormed_accessPoint_row local) (accessPoint_rows s) ->
  Forall (wellFormed_client_row local) (client_rows s) ->
  exists (aps : list AccessPoint.t) (clients : list Client.t),
    parseAirodumpCsv ouidb ciddb local files file = Ok (aps, clients)
    /\ length aps = length (accessPoint_rows s)
    /\ length clients = length (client_rows s).
Proof.
  intros Hf Hm Hap Hcl.
  rewrite (parseAirodumpCsv_sections _ _ _ _ _ _ Hf Hm).
  rewrite getClientsData_rows. fold (client_rows s).
  rewrite (filter_all (has_columns 14) (accessPoint_rows s)).
  2:{ eapply Forall_impl; [exact Hap|]. intros r (H14 & _).
      now apply Nat.leb_le. }
  rewrite (filter_all (has_columns 7) (client_rows s)).
  2:{ eapply Forall_impl; [exact Hcl|]. intros r (H7 & _).
      now apply Nat.leb_le. }
  destruct (mapM_all_Ok
              (fun record => enrich ouidb ciddb (client_values local record))
              (client_rows s)) as (clients & Hclients).
  { eapply Forall_impl; [exact Hcl|]. intros r (_ & H8 & _).
    destruct (enrich_Ok ouidb ciddb (client_values local r)) as (b & _ & ->);
      [now rewrite client_values_MAC_len | eauto]. }
  rewrite Hclients. cbn [mbind result_bind].
  eexists _, clients. split; [reflexivity|]. split.
  - apply length_map.
  - apply mapM_Ok_Forall2 in Hclients. symmetry.
    exact (Forall2_length _ _ _ Hclients).
Qed.

(** The theorem at [scenario_dump]: one access point and one client. *)
Lemma well_formed_dump_counts_at_scenario :
  exists (aps : list AccessPoint.t) (clients : list Client.t),
    parseAirodumpCsv ∅ ∅ time.UTC {[csvFile := scenario_dump]} csvFile
    = Ok (aps, clients)
    /\ length aps = 1%nat /\ length clients = 1%nat.
Proof.
  apply (well_formed_dump_counts ∅ ∅ time.UTC {[csvFile := scenario_dump]}
           csvFile scenario_dump); try reflexivity.
  - repeat constructor.
  - repeat constructor.
Defined.

(** ** C8: the addresses of the records *)

(** C8 (as amended).  The address of every record returned is the first
    column of a record read, with a hyphen in the place of each colon, the
    case of the letters unchanged: it holds no colon,
    [aa:bb:cc:dd:ee:ff] becomes [aa-bb-cc-dd-ee-ff], and in the end-to-end
    scenario the row that starts with [AA:BB:CC:DD:EE:FF] yields one
    client, whose address is [AA-BB-CC-DD-EE-FF], with power -40, 12
    packets and the BSSID [(not associated)]. *)
Theorem addresses_have_hyphens_for_colons
  (ouidb ciddb : gmap string string) (local : time.Location) :
  (forall (files : gmap string string) (file : string)
          (aps : list AccessPoint.t) (clients : list Client.t),
      parseAirodumpCsv ouidb ciddb local files file = Ok (aps, clients) ->
      (forall ap, In ap aps ->
         GoString.Contains (AccessPoint.MAC ap) ":" = false
         /\ exists s record,
              files !! file = Some s
              /\ In record (accessPoint_rows s)
              /\ AccessPoint.MAC ap
                 = GoString.ReplaceAll (column record 0) ":" "-")
      /\ (forall c, In c clients ->
            GoString.Contains (Client.MAC c) ":" = false
            /\ exists s record,
                 files !! file = Some s
                 /\ In record (client_rows s)
                 /\ Client.MAC c
                    = GoString.ReplaceAll (column record 0) ":" "-"))
  /\ GoString.ReplaceAll "aa:bb:cc:dd:ee:ff" ":" "-" = "aa-bb-cc-dd-ee-ff"
  /\ exists (ap : AccessPoint.t) (c : Client.t),
       parseAirodumpCsv ouidb ciddb local {[csvFile := scenario_dump]} csvFile
       = Ok ([ap], [c])
       /\ Client.MAC c = "AA-BB-CC-DD-EE-FF"
       /\ Client.Power c = (-40)%Z
       /\ Client.Packets c = 12%Z
       /\ Client.BSSID c = "(not associated)".
Proof.
  split; [|split; [reflexivity|]].
  - intros files file aps clients H. unfold parseAirodumpCsv in H.
    destruct (files !! file) as [s|] eqn:Hf.
    2:{ injection H as <- <-. split; intros x []. }
    destruct (GoString.index (GoString.Split s marker) 0) as [d0|p] eqn:H0;
      cbn [mbind result_bind] in H; [|discriminate].
    rewrite getAPData_rows in H. cbn [mbind result_bind] in H.
    destruct (GoString.index (GoString.Split s marker) 1) as [d1|p] eqn:H1;
      cbn [mbind result_bind] in H; [|discriminate].
    destruct (getClientsData ouidb ciddb local d1) as [cs|p] eqn:Hc;
      cbn [mbind result_bind] in H; [|discriminate].
    apply index_Ok_nth in H0, H1. fold (accessPoint_section s) in H0.
    fold (client_section s) in H1. subst d0 d1.
    injection H as <- <-. split.
    + intros ap Hin. apply in_map_iff in Hin as (record & <- & Hr).
      apply filter_In in Hr as [Hr _].
      split; [apply ReplaceAll_colon_free | now exists s, record].
    + intros c Hin.
      destruct (getClientsData_In _ _ _ _ _ _ Hc Hin) as (record & Hr & _ & He).
      pose proof (enrich_Ok_inv _ _ _ _ He) as Hlen.
      destruct (enrich_Ok ouidb ciddb _ Hlen) as (b & _ & Hv).
      rewrite He in Hv.
      assert (Hmac : Client.MAC c = Client.MAC (client_values local record))
        by now injection Hv as ->.
      rewrite Hmac.
      split; [apply ReplaceAll_colon_free | now exists s, record].
  - rewrite (parseAirodumpCsv_sections ouidb ciddb local _ csvFile
               scenario_dump (lookup_singleton_eq _ _) eq_refl).
    rewrite getClientsData_rows.
    let rows := eval vm_compute in (accessPoint_rows scenario_dump) in
    change (accessPoint_rows scenario_dump) with rows.
    let rows := eval vm_compute in (records (client_section scenario_dump)) in
    change (records (client_section scenario_dump)) with rows.
    cbn [List.filter has_columns length Nat.leb map mapM].
    match goal with
    | |- context [enrich ouidb ciddb ?c0] =>
        destruct (enrich_Ok ouidb ciddb c0) as (b & _ & ->);
          [vm_compute; lia|]
    end.
    cbn [mbind result_bind]. eexists _, _. split; [reflexivity|].
    repeat split.
Qed.

(** The theorem with empty registries: the lists of the scenario. *)
Lemma addresses_have_hyphens_for_colons_at_scenario :
  GoString.Contains (Client.MAC sample_client) ":" = false.
Proof.
  refine (proj1 (proj2 (proj1 (addresses_have_hyphens_for_colons ∅ ∅ time.UTC)
            {[csvFile := scenario_dump]} csvFile
            [sample_accessPoint] [sample_client] _) sample_client _));
    [reflexivity | now left].
Defined.

(** C8 as stated fails in the scenario: the address of the client is in
    upper case, as in the row. *)
Lemma scenario_address_keeps_its_case :
  parseAirodumpCsv ∅ ∅ time.UTC {[csvFile := scenario_dump]} csvFile
  = Ok ([sample_accessPoint], [sample_client])
  /\ Client.MAC sample_client = "AA-BB-CC-DD-EE-FF"
  /\ Client.MAC sample_client <> "aa-bb-cc-dd-ee-ff".
Proof. vm_compute. repeat split. discriminate. Qed.

(** ** C10: a client row with a short address *)

(** C10.  A client row of at least 7 columns whose address has fewer than
    8 bytes is not skipped: in a dump that holds the marker line and such
    a row, [parseAirodumpCsv] ends in a panic for a slice bound out of
    range, at [MAC[:2]] in [isLocalMAC] or at [MAC[:8]] in the lookup of
    the prefix, and the turn of [getData] ends with it. *)
Theorem short_address_panics
  (ouidb ciddb : gmap string string) (local : time.Location)
  (files : gmap string string) (file s : string) (st : store)
  (record : list string) :
  files !! file = Some s ->
  GoString.Contains s marker = true ->
  In record (client_rows s) ->
  (7 <= length record)%nat ->
  (GoString.len (column record 0) < 8)%nat ->
  exists bound len : nat,
    (bound = 2 \/ bound = 8)%nat /\ (len < bound)%nat
    /\ parseAirodumpCsv ouidb ciddb local files file
       = Panic (SliceBoundsOutOfRange bound len)
    /\ getData_cycle ouidb ciddb local files file st
       = Panic (SliceBoundsOutOfRange bound len).
Proof.
  intros Hf Hm Hin H7 H8.
  assert (Hp : exists p, getClientsData ouidb ciddb local (client_section s)
                         = Panic p).
  { rewrite getClientsData_rows. apply mapM_Panic, List.Exists_exists.
    exists record. split.
    - apply filter_In. split; [exact Hin | now apply Nat.leb_le].
    - destruct (enrich_Panic ouidb ciddb (client_values local record))
        as (bound & -> & _); [now rewrite client_values_MAC_len | eauto]. }
  destruct Hp as (p & Hp).
  pose proof Hp as Hq. rewrite getClientsData_rows in Hq.
  apply mapM_Panic_inv in Hq as (r & _ & Hr).
  destruct (Nat.lt_ge_cases (GoString.len (Client.MAC (client_values local r)))
              8) as [L|L].
  2:{ destruct (enrich_Ok ouidb ciddb _ L) as (b & _ & E). congruence. }
  destruct (enrich_Panic ouidb ciddb _ L) as (bound & E & Hb).
  rewrite Hr in E. injection E as ->.
  assert (Hparse : parseAirodumpCsv ouidb ciddb local files file
                   = Panic (SliceBoundsOutOfRange bound
                              (GoString.len
                                 (Client.MAC (client_values local r))))).
  { rewrite (parseAirodumpCsv_sections _ _ _ _ _ _ Hf Hm). now rewrite Hp. }
  exists bound, (GoString.len (Client.MAC (client_values local r))).
  split; [exact Hb|]. split.
  - destruct Hb as [-> | ->]; [|exact L].
    destruct (Nat.lt_ge_cases
                (GoString.len (Client.MAC (client_values local r))) 2)
      as [L2|L2]; [exact L2|].
    unfold enrich in Hr. rewrite isLocalMAC_bit in Hr by exact L2.
    cbn [mbind result_bind] in Hr. rewrite slice_to_Panic in Hr by exact L.
    destruct (Z.testbit _ 1); injection Hr as Hr; lia.
  - split; [exact Hparse|]. unfold getData_cycle. now rewrite Hparse.
Qed.

(** The theorem at [short_address_dump], whose client row has the address
    [AA:BB]. *)
Lemma short_address_panics_at_short_address_dump :
  exists bound len : nat,
    (bound = 2 \/ bound = 8)%nat /\ (len < bound)%nat
    /\ parseAirodumpCsv ∅ ∅ time.UTC {[csvFile := short_address_dump]} csvFile
       = Panic (SliceBoundsOutOfRange bound len)
    /\ getData_cycle ∅ ∅ time.UTC {[csvFile := short_address_dump]} csvFile
         (Store [] [])
       = Panic (SliceBoundsOutOfRange bound len).
Proof.
  apply (short_address_panics ∅ ∅ time.UTC {[csvFile := short_address_dump]}
           csvFile short_address_dump (Store [] [])
           ["AA:BB"; "2024-01-01 10:00:00"; "2024-01-01 10:05:00"; "-40";
            "12"; "(not associated)"; ""]);
    [reflexivity | reflexivity | now left | vm_compute; lia | vm_compute; lia].
Defined.

(** * Further properties of the code *)

(** ** [filterByLastSeen] on every input *)

Lemma filterByLastSeen_from_recent (now : nat -> time.Time) (k : nat)
  (clients : list Client.t) (mins : Z) (results : list Client.t) :
  filterByLastSeen_from now k clients mins results =
  results ++ map snd (List.filter (recently_seen now mins)
                        (indexed_from k clients)).
Proof.
  revert k results. induction clients as [|c clients IH]; intros k results.
  - simpl. now rewrite app_nil_r.
  - cbn [filterByLastSeen_from]. rewrite IH.
    unfold indexed_from. cbn [length seq combine List.filter].
    unfold recently_seen at 2, window_offset. cbn [fst snd].
    destruct (time.Before _ _); cbn [map snd];
      [now rewrite <- app_assoc | reflexivity].
Qed.

Lemma filter_indexed_sublist (f : nat * Client.t -> bool) (k : nat)
  (clients : list Client.t) :
  sublist (map snd (List.filter f (indexed_from k clients))) clients.
Proof.
  revert k. induction clients as [|c clients IH]; intros k; [constructor|].
  unfold indexed_from. cbn [length seq combine List.filter].
  destruct (f (k, c)); cbn [map snd].
  - apply sublist_skip, IH.
  - apply sublist_cons, IH.
Qed.

(** X1.  Whatever the clock, the list and the window, also a window that
    overflows or is negative, [filterByLastSeen] returns clients of its
    argument in the order they have there: none is added, repeated or
    moved. *)
Theorem filterByLastSeen_sublist
  (now : nat -> time.Time) (clients : list Client.t) (mins : Z) :
  sublist (filterByLastSeen now clients mins) clients.
Proof.
  unfold filterByLastSeen. rewrite filterByLastSeen_from_recent.
  apply filter_indexed_sublist.
Qed.

Lemma filter_indexed_mono (f g : nat * Client.t -> bool) (k : nat)
  (clients : list Client.t) :
  (forall kc, f kc = true -> g kc = true) ->
  sublist (map snd (List.filter f (indexed_from k clients)))
          (map snd (List.filter g (indexed_from k clients))).
Proof.
  intros Hfg. revert k. induction clients as [|c clients IH]; intros k;
    [constructor|].
  unfold indexed_from. cbn [length seq combine List.filter].
  destruct (f (k, c)) eqn:Hf.
  - rewrite (Hfg _ Hf). cbn [map snd]. apply sublist_skip, IH.
  - destruct (g (k, c)); cbn [map snd]; [apply sublist_cons|]; apply IH.
Qed.

(** X2.  While the window is a [Duration] (at most [max_window] minutes),
    a larger window keeps every client a smaller one keeps: the list for
    [m1] minutes is a sublist of the list for [m2 >= m1] minutes, the
    clock being read the same way. *)
Theorem filterByLastSeen_larger_window
  (now : nat -> time.Time) (clients : list Client.t) (m1 m2 : Z) :
  (0 <= m1 <= m2)%Z -> (m2 <= max_window)%Z ->
  sublist (filterByLastSeen now clients m1) (filterByLastSeen now clients m2).
Proof.
  intros H1 H2. unfold filterByLastSeen.
  rewrite !filterByLastSeen_from_window by lia. cbn [app].
  apply filter_indexed_mono. intros [k c]. unfold seen_within. cbn [fst snd].
  intros H%Z.ltb_lt. apply Z.ltb_lt. lia.
Qed.

(** The theorem for windows of 1 and 10 minutes at 10:10:00, five minutes
    after [sample_client] was last seen. *)
Lemma filterByLastSeen_larger_window_at_sample :
  sublist
    (filterByLastSeen (fun _ => time.Date 2024 1 1 10 10 0 0 time.UTC)
       [sample_client] 1)
    (filterByLastSeen (fun _ => time.Date 2024 1 1 10 10 0 0 time.UTC)
       [sample_client] 10).
Proof.
  apply (filterByLastSeen_larger_window
           (fun _ => time.Date 2024 1 1 10 10 0 0 time.UTC) [sample_client]
           1 10); unfold max_window; lia.
Defined.

Lemma In_filter_indexed (f : nat * Client.t -> bool) (k : nat)
  (clients : list Client.t) (c : Client.t) :
  In c (map snd (List.filter f (indexed_from k clients))) ->
  In c clients /\ exists k', f (k', c) = true.
Proof.
  revert k. induction clients as [|c' clients IH]; intros k; [intros []|].
  unfold indexed_from. cbn [length seq combine List.filter].
  destruct (f (k, c')) eqn:Hf; cbn [map snd].
  - intros [<-|Hin].
    + split; [now left | eauto].
    + destruct (IH _ Hin) as [Hc Hk]. split; [now right | exact Hk].
  - intros Hin. destruct (IH _ Hin) as [Hc Hk]. split; [now right | exact Hk].
Qed.

Lemma enrich_keeps_LastSeen (ouidb ciddb : gmap string string)
  (c c' : Client.t) :
  enrich ouidb ciddb c = Ok c' -> Client.LastSeen c' = Client.LastSeen c.
Proof.
  intros He. pose proof (enrich_Ok_inv _ _ _ _ He) as Hlen.
  destruct (enrich_Ok ouidb ciddb c Hlen) as (b & _ & Hv).
  rewrite He in Hv. now injection Hv as ->.
Qed.

(** X3.  A client that [filterByLastSeen] lists out of what
    [getClientsData] returned was read from a row whose last-seen column
    parsed: the rows kept with the zero time in that column are never
    listed, for a window that is a [Duration] and a clock that reads at
    least that window after the zero time. *)
Theorem listed_clients_have_a_parsed_last_seen
  (ouidb ciddb : gmap string string) (local : time.Location) (data : string)
  (clients : list Client.t) (now : nat -> time.Time) (mins : Z)
  (c : Client.t) :
  getClientsData ouidb ciddb local data = Ok clients ->
  (0 <= mins <= max_window)%Z ->
  (forall k, (mins * 60 * 1000000000 <= now k)%Z) ->
  In c (filterByLastSeen now clients mins) ->
  exists record,
    In record (records data)
    /\ has_columns 7 record = true
    /\ parses_timestamp local (column record 2)
    /\ enrich ouidb ciddb (client_values local record) = Ok c.
Proof.
  intros Hd Hm Hnow Hin. unfold filterByLastSeen in Hin.
  rewrite filterByLastSeen_from_window in Hin by exact Hm. cbn [app] in Hin.
  apply In_filter_indexed in Hin as (Hc & k & Hk).
  destruct (getClientsData_In _ _ _ _ _ _ Hd Hc) as (record & Hr & H7 & He).
  exists record. repeat split; try assumption.
  unfold seen_within in Hk. cbn [fst snd] in Hk. apply Z.ltb_lt in Hk.
  rewrite (enrich_keeps_LastSeen _ _ _ _ He) in Hk.
  cbn [client_values Client.LastSeen] in Hk.
  unfold parses_timestamp.
  destruct (snd (time.ParseInLocation
                   (GoString.TrimSpace (column record 2)) local))
    as [e|] eqn:Hp; [|reflexivity].
  unfold timestamp in Hk.
  rewrite ParseInLocation_error_zero in Hk by (rewrite Hp; discriminate).
  unfold time.zero in Hk. specialize (Hnow k). lia.
Qed.

(** The theorem at the client row of the scenario, ten minutes after the
    client was last seen, with a window of an hour. *)
Lemma listed_clients_have_a_parsed_last_seen_at_scenario :
  exists record,
    In record (records (client_section scenario_dump))
    /\ has_columns 7 record = true
    /\ parses_timestamp time.UTC (column record 2)
    /\ enrich ∅ ∅ (client_values time.UTC record) = Ok sample_client.
Proof.
  apply (listed_clients_have_a_parsed_last_seen ∅ ∅ time.UTC
           (client_section scenario_dump) [sample_client]
           (fun _ => time.Date 2024 1 1 10 15 0 0 time.UTC) 60 sample_client).
  - reflexivity.
  - unfold max_window. lia.
  - intros _. vm_compute. discriminate.
  - vm_compute. now left.
Defined.

(** ** The loop of [getData] *)

Section GetDataFacts.

Variables ouidb ciddb : gmap string string.
Variable local : time.Location.

Lemma getData_app (h1 h2 : list (gmap string string)) (file : string)
  (st : store) :
  getData ouidb ciddb local (h1 ++ h2) file st =
  st1 ← getData ouidb ciddb local h1 file st;
  getData ouidb ciddb local h2 file st1.
Proof.
  revert st. induction h1 as [|files h1 IH]; intros st; [reflexivity|].
  cbn [app getData].
  destruct (getData_cycle ouidb ciddb local files file st) as [st'|p];
    cbn [mbind result_bind]; [apply IH | reflexivity].
Qed.

Lemma getData_last (history : list (gmap string string))
  (files : gmap string string) (file : string) (st : store) :
  getData ouidb ciddb local (history ++ [files]) file st =
  _ ← getData ouidb ciddb local history file st;
  '(aps, clients) ← parseAirodumpCsv ouidb ciddb local files file;
  Ok (Store aps clients).
Proof.
  rewrite getData_app.
  destruct (getData ouidb ciddb local history file st) as [st1|p];
    cbn [mbind result_bind getData]; [|reflexivity].
  unfold getData_cycle.
  destruct (parseAirodumpCsv ouidb ciddb local files file) as [[aps cs]|p];
    reflexivity.
Qed.

Lemma getData_initial_store (history : list (gmap string string))
  (files : gmap string string) (file : string) (st1 st2 : store) :
  getData ouidb ciddb local (files :: history) file st1 =
  getData ouidb ciddb local (files :: history) file st2.
Proof. reflexivity. Qed.

End GetDataFacts.

(** X4.  The loop of [getData] keeps no history.  After one turn or more,
    its outcome does not depend on the lists published before the first
    turn; and when it has not ended in a panic, the two published lists
    are the ones [parseAirodumpCsv] returned in the last turn, from the
    dump file as it was then. *)
Theorem getData_keeps_no_history
  (ouidb ciddb : gmap string string) (local : time.Location)
  (history : list (gmap string string)) (files : gmap string string)
  (file : string) (st1 st2 : store) :
  getData ouidb ciddb local (history ++ [files]) file st1
  = getData ouidb ciddb local (history ++ [files]) file st2
  /\ forall st' : store,
       getData ouidb ciddb local (history ++ [files]) file st1 = Ok st' ->
       parseAirodumpCsv ouidb ciddb local files file
       = Ok (apsFound st', clientsFound st').
Proof.
  split.
  - destruct history as [|files0 history]; apply getData_initial_store.
  - intros st'. rewrite getData_last.
    destruct (getData ouidb ciddb local history file st1) as [st0|p];
      cbn [mbind result_bind]; [|discriminate].
    destruct (parseAirodumpCsv ouidb ciddb local files file) as [[aps cs]|p];
      cbn [mbind result_bind]; [|discriminate].
    now intros [= <-].
Qed.

(** The theorem for two turns: an unreadable dump file, then the dump of
    the scenario. *)
Lemma getData_keeps_no_history_at_scenario :
  parseAirodumpCsv ∅ ∅ time.UTC {[csvFile := scenario_dump]} csvFile
  = Ok ([sample_accessPoint], [sample_client]).
Proof.
  apply (proj2 (getData_keeps_no_history ∅ ∅ time.UTC [∅]
                  {[csvFile := scenario_dump]} csvFile
                  (Store [] []) (Store [] []))
           (Store [sample_accessPoint] [sample_client])).
  reflexivity.
Defined.

(** ** The registries and the records *)

Lemma enrich_short_registries (o1 c1 o2 c2 : gmap string string)
  (c : Client.t) :
  (GoString.len (Client.MAC c) < 8)%nat ->
  enrich o1 c1 c = enrich o2 c2 c.
Proof.
  intros H. unfold enrich.
  destruct (isLocalMAC (Client.MAC c)) as [b|p]; cbn [mbind result_bind];
    [|reflexivity].
  rewrite slice_to_Panic by exact H. now destruct b.
Qed.

Lemma mapM_enrich_registries (o1 c1 o2 c2 : gmap string string)
  (l : list Client.t) :
  same_but_organization (mapM (enrich o1 c1) l) (mapM (enrich o2 c2) l).
Proof.
  induction l as [|c l IH]; [reflexivity|]. cbn [mapM].
  destruct (Nat.lt_ge_cases (GoString.len (Client.MAC c)) 8) as [L|L].
  - rewrite (enrich_short_registries o1 c1 o2 c2 c L).
    destruct (enrich o2 c2 c) as [c'|p] eqn:E; [|reflexivity].
    apply enrich_Ok_inv in E. lia.
  - destruct (enrich_Ok o1 c1 c L) as (b1 & Hb1 & ->).
    destruct (enrich_Ok o2 c2 c L) as (b2 & Hb2 & ->).
    cbn [mbind result_bind]. unfold same_but_organization in *.
    destruct (mapM (enrich o1 c1) l) as [cs1|p1],
             (mapM (enrich o2 c2) l) as [cs2|p2];
      cbn [mbind result_bind]; try assumption.
    cbn [map]. now rewrite IH.
Qed.

Lemma mapM_map {A B C : Type} (f : B -> result C) (g : A -> B) (l : list A) :
  mapM (fun a => f (g a)) l = mapM f (map g l).
Proof.
  induction l as [|a l IH]; [reflexivity|]. cbn [mapM map]. now rewrite IH.
Qed.

(** X5.  The registries decide the organizations and nothing else: with
    two pairs of registries, [getClientsData] ends in the same panic on a
    section, or returns two lists of the same length whose clients agree,
    one by one, in every field but the organization. *)
Theorem registries_decide_the_organization_only
  (ouidb1 ciddb1 ouidb2 ciddb2 : gmap string string)
  (local : time.Location) (data : string) :
  same_but_organization
    (getClientsData ouidb1 ciddb1 local data)
    (getClientsData ouidb2 ciddb2 local data).
Proof.
  rewrite !getClientsData_rows.
  rewrite (mapM_map (enrich ouidb1 ciddb1) (client_values local)).
  rewrite (mapM_map (enrich ouidb2 ciddb2) (client_values local)).
  apply mapM_enrich_registries.
Qed.

(** ** The two sections of a dump *)

Lemma HasPrefix_app (x y p : string) :
  GoString.HasPrefix (x +:+ y) p =
  if (GoString.len p <=? GoString.len x)%nat then GoString.HasPrefix x p
  else GoString.HasPrefix p x
       && GoString.HasPrefix y (suffix_from (GoString.len x) p).
Proof.
  revert p. induction x as [|a x IH]; intros p.
  - destruct p as [|b p]; [now destruct y | reflexivity].
  - destruct p as [|b p]; [reflexivity|].
    change (String a x +:+ y) with (String a (x +:+ y)).
    cbn [GoString.HasPrefix]. rewrite IH.
    change (GoString.len (String b p) <=? GoString.len (String a x))%nat
      with (GoString.len p <=? GoString.len x)%nat.
    destruct (GoString.len p <=? GoString.len x)%nat; [reflexivity|].
    cbn [GoString.len String.length suffix_from].
    fold (GoString.len x). rewrite (eqb_sym a b).
    now rewrite andb_assoc.
Qed.

Lemma suffix_from_len (k : nat) (s : string) :
  GoString.len (suffix_from k s) = (GoString.len s - k)%nat.
Proof.
  revert s. induction k as [|k IH]; intros [|c s]; try reflexivity.
  cbn [suffix_from]. rewrite IH. reflexivity.
Qed.

Lemma bordered_false (sep : string) (k : nat) :
  bordered sep = false -> (1 <= k < GoString.len sep)%nat ->
  GoString.HasPrefix sep (suffix_from k sep) = false.
Proof.
  intros Hb Hk. unfold bordered in Hb.
  destruct (GoString.HasPrefix sep (suffix_from k sep)) eqn:E; [|reflexivity].
  assert (Hex : existsb (fun k => GoString.HasPrefix sep (suffix_from k sep))
                  (seq 1 (GoString.len sep - 1)) = true).
  { apply existsb_exists. exists k. split; [apply in_seq; lia | exact E]. }
  congruence.
Qed.

(** Before the end of a text that does not hold the separator, no
    occurrence of an unbordered separator starts. *)
Lemma no_early_occurrence (sep x rest : string) :
  bordered sep = false -> x <> "" ->
  GoString.HasPrefix x sep = false ->
  GoString.HasPrefix (x +:+ sep +:+ rest) sep = false.
Proof.
  intros Hb Hx Hp. rewrite HasPrefix_app.
  destruct (Nat.leb_spec (GoString.len sep) (GoString.len x)) as [L|L];
    [exact Hp|].
  apply andb_false_iff. right. rewrite HasPrefix_app.
  rewrite suffix_from_len.
  replace (GoString.len sep - GoString.len x <=? GoString.len sep)%nat
    with true by (symmetry; apply Nat.leb_le; lia).
  apply bordered_false; [exact Hb|].
  split; [|exact L]. destruct x; [congruence | unfold GoString.len; simpl; lia].
Qed.

Lemma HasPrefix_refl_app (sep rest : string) :
  GoString.HasPrefix (sep +:+ rest) sep = true.
Proof.
  induction sep as [|c sep IH]; [now destruct rest|].
  change (String c sep +:+ rest) with (String c (sep +:+ rest)).
  cbn [GoString.HasPrefix]. now rewrite Ascii.eqb_refl.
Qed.

Lemma Split_from_skip (sep x rest cur : string) :
  GoString.Split_from sep (x +:+ rest) (GoString.len x) cur =
  GoString.Split_from sep rest 0 cur.
Proof.
  induction x as [|c x IH]; [now destruct rest|]. exact IH.
Qed.

Lemma Split_from_first (sep a rest cur : string) :
  bordered sep = false -> sep <> "" ->
  GoString.Contains a sep = false ->
  GoString.Split_from sep (a +:+ sep +:+ rest) 0 cur =
  String.rev_app cur a :: GoString.Split_from sep rest 0 "".
Proof.
  intros Hb Hsep. revert cur. induction a as [|c a IH]; intros cur Ha.
  - change ("" +:+ sep +:+ rest) with (sep +:+ rest).
    pose proof (HasPrefix_refl_app sep rest) as Hp.
    destruct sep as [|s0 sep]; [congruence|].
    change (String s0 sep +:+ rest) with (String s0 (sep +:+ rest)) in *.
    cbn [GoString.Split_from]. rewrite Hp. f_equal.
    replace (GoString.len (String s0 sep) - 1)%nat with (GoString.len sep)
      by (unfold GoString.len; simpl; lia).
    apply Split_from_skip.
  - cbn [GoString.Contains] in Ha. apply orb_false_iff in Ha as [Hp Hc].
    change (String c a +:+ sep +:+ rest)
      with (String c (a +:+ sep +:+ rest)).
    cbn [GoString.Split_from].
    change (String c (a +:+ sep +:+ rest))
      with (String c a +:+ sep +:+ rest) at 1.
    rewrite (no_early_occurrence sep (String c a) rest Hb) by
      (congruence || exact Hp).
    rewrite IH by exact Hc. reflexivity.
Qed.

Lemma marker_unbordered : bordered marker = false.
Proof. vm_compute. reflexivity. Qed.

Lemma Split_marker_first (a rest : string) :
  GoString.Contains a marker = false ->
  GoString.Split (a +:+ marker +:+ rest) marker
  = a :: GoString.Split rest marker.
Proof.
  intros Ha. unfold GoString.Split.
  now rewrite (Split_from_first marker a rest "" marker_unbordered
                 marker_not_empty Ha).
Qed.

(** X6.  The access-point section of a dump is what stands before the
    first marker line and the client section what stands between that
    line and the next marker line, or the end: for texts [a] and [b]
    without the marker line, the dumps [a marker b] and
    [a marker b marker c] are both parsed as [getAPData a] and
    [getClientsData b].  What follows a second marker line is not read. *)
Theorem dump_sections
  (ouidb ciddb : gmap string string) (local : time.Location)
  (files : gmap string string) (file a b c : string) :
  GoString.Contains a marker = false ->
  GoString.Contains b marker = false ->
  files !! file = Some (a +:+ marker +:+ b)
  \/ files !! file = Some (a +:+ marker +:+ b +:+ marker +:+ c) ->
  parseAirodumpCsv ouidb ciddb local files file =
  aps ← getAPData local a;
  clients ← getClientsData ouidb ciddb local b;
  Ok (aps, clients).
Proof.
  intros Ha Hb Hf. unfold parseAirodumpCsv.
  assert (Hs : exists s more,
             files !! file = Some s
             /\ GoString.Split s marker = a :: b :: more).
  { destruct Hf as [Hf|Hf]; eexists _, _; (split; [exact Hf|]);
      rewrite (Split_marker_first _ _ Ha).
    - now rewrite (Split_absent b marker Hb).
    - now rewrite (Split_marker_first _ _ Hb). }
  destruct Hs as (s & more & -> & ->). reflexivity.
Qed.

(** The theorem at the dump of the scenario, cut at its marker line. *)
Lemma dump_sections_at_scenario :
  parseAirodumpCsv ∅ ∅ time.UTC {[csvFile := scenario_dump]} csvFile =
  aps ← getAPData time.UTC (accessPoint_section scenario_dump);
  clients ← getClientsData ∅ ∅ time.UTC (client_section scenario_dump);
  Ok (aps, clients).
Proof.
  apply (dump_sections ∅ ∅ time.UTC {[csvFile := scenario_dump]} csvFile
           (accessPoint_section scenario_dump)
           (client_section scenario_dump) "");
    [reflexivity | reflexivity | left; vm_compute; reflexivity].
Defined.

(** ** The registries *)

Lemma Split_two (line sep : string) :
  sep <> "" -> GoString.Contains line sep = true ->
  GoString.index (GoString.Split line sep) 0 = Ok (fst (entry sep line))
  /\ GoString.index (GoString.Split line sep) 1 = Ok (snd (entry sep line)).
Proof.
  intros Hsep Hc. unfold entry.
  destruct (Split_present line sep Hsep Hc) as (a & b & more & ->).
  split; reflexivity.
Qed.

Lemma insert_entries (es : list (string * string))
  (registry : gmap string string) :
  foldl (fun m e => <[e.1 := e.2]> m) registry es
  = list_to_map (reverse es) ∪ registry.
Proof.
  revert registry. induction es as [|[k v] es IH]; intros registry.
  - cbn [foldl]. unfold reverse. cbn. now rewrite (left_id_L ∅ (∪)).
  - cbn [foldl fst snd]. rewrite IH, reverse_cons, list_to_map_app.
    cbn [list_to_map foldr fst snd uncurry]. rewrite insert_empty.
    rewrite <- (assoc_L (∪)). now rewrite <- insert_union_singleton_l.
Qed.

(** The loop over the lines of a registry file, when every line with
    [(hex)] holds the separator, and when one does not. *)
Lemma registry_from_Ok (sep : string) (lines : list string)
  (registry : gmap string string) :
  sep <> "" ->
  Forall (fun line => broken_line sep line = false) lines ->
  registry_from sep lines registry
  = Ok (foldl (fun m e => <[e.1 := e.2]> m) registry (entries sep lines)).
Proof.
  intros Hsep H. revert registry.
  induction H as [|line lines Hl _ IH]; intros registry; [reflexivity|].
  cbn [registry_from]. unfold entries, hex_lines. cbn [List.filter].
  unfold broken_line in Hl.
  destruct (GoString.Contains line "(hex)"); [|apply IH].
  cbn [andb] in Hl. apply negb_false_iff in Hl.
  destruct (Split_two line sep Hsep Hl) as [-> ->].
  cbn [mbind result_bind map foldl]. rewrite IH.
  now destruct (entry sep line).
Qed.

Lemma registry_from_Panic (sep : string) (lines : list string)
  (registry : gmap string string) :
  sep <> "" ->
  Exists (fun line => broken_line sep line = true) lines ->
  registry_from sep lines registry = Panic (IndexOutOfRange 1 1).
Proof.
  intros Hsep H. revert registry.
  induction lines as [|line lines IH]; intros registry;
    [now apply Exists_nil in H|].
  cbn [registry_from]. unfold broken_line in *.
  destruct (GoString.Contains line "(hex)") eqn:Hh.
  - destruct (GoString.Contains line sep) eqn:Hc.
    + destruct (Split_two line sep Hsep Hc) as [-> ->].
      cbn [mbind result_bind]. apply IH.
      apply Exists_cons in H as [H|H]; [|exact H].
      rewrite Hh, Hc in H. discriminate.
    + now rewrite (Split_absent line sep Hc).
  - apply IH. apply Exists_cons in H as [H|H]; [|exact H].
    rewrite Hh in H. discriminate.
Qed.

Lemma registry_from_cases (sep : string) (lines : list string) :
  sep <> "" ->
  (Forall (fun line => broken_line sep line = false) lines
   /\ registry_from sep lines ∅
      = Ok (list_to_map (reverse (entries sep lines))))
  \/ (Exists (fun line => broken_line sep line = true) lines
      /\ registry_from sep lines ∅ = Panic (IndexOutOfRange 1 1)).
Proof.
  intros Hsep.
  assert (D : Forall (fun line => broken_line sep line = false) lines
              \/ Exists (fun line => broken_line sep line = true) lines).
  { induction lines as [|line lines [F|E]]; [left; constructor | |].
    - destruct (broken_line sep line) eqn:B.
      + right. now apply Exists_cons_hd.
      + left. now constructor.
    - right. now apply Exists_cons_tl. }
  destruct D as [F|E].
  - left. split; [exact F|].
    rewrite registry_from_Ok by assumption.
    now rewrite insert_entries, (right_id_L ∅ (∪)).
  - right. split; [exact E | now apply registry_from_Panic].
Qed.

Lemma oui_separator_not_empty : oui_separator <> "".
Proof. discriminate. Qed.

Lemma cid_separator_not_empty : cid_separator <> "".
Proof. discriminate. Qed.

Lemma registry_holds_the_last_entry_of_each_key_aux
  (files : gmap string string) (dir text : string)
  (ouidb ciddb : gmap string string) :
  (files !! oui_path dir = Some text ->
   parseOui files dir = Ok ouidb ->
   ouidb = list_to_map (reverse (entries oui_separator (bufio.Scan text))))
  /\ (files !! cid_path dir = Some text ->
      parseCid files dir = Ok ciddb ->
      ciddb = list_to_map (reverse (entries cid_separator (bufio.Scan text)))).
Proof.
  split; intros Hf Hp.
  - unfold parseOui in Hp. fold (oui_path dir) in Hp. rewrite Hf in Hp.
    destruct (registry_from_cases oui_separator (bufio.Scan text)
                oui_separator_not_empty) as [[_ E]|[_ E]];
      rewrite E in Hp; [now injection Hp as <- | discriminate].
  - unfold parseCid in Hp. fold (cid_path dir) in Hp. rewrite Hf in Hp.
    destruct (registry_from_cases cid_separator (bufio.Scan text)
                cid_separator_not_empty) as [[_ E]|[_ E]];
      rewrite E in Hp; [now injection Hp as <- | discriminate].
Qed.

(** X7.  When [parseOui] and [parseCid] return, the registry maps what
    stands before the separator in a line that holds [(hex)] to what
    stands after it, and where several lines have the same key the last
    one counts: the registry is the map of the entries of the file read
    from the last line to the first, an earlier one in that order
    winning. *)
Theorem registry_holds_the_last_entry_of_each_key
  (files : gmap string string) (dir text : string)
  (registry : gmap string string) :
  (files !! oui_path dir = Some text ->
   parseOui files dir = Ok registry ->
   registry
   = list_to_map (reverse (entries oui_separator (bufio.Scan text))))
  /\ (files !! cid_path dir = Some text ->
      parseCid files dir = Ok registry ->
      registry
      = list_to_map (reverse (entries cid_separator (bufio.Scan text)))).
Proof.
  apply (registry_holds_the_last_entry_of_each_key_aux files dir text
           registry registry).
Qed.

(** The theorem at [sample_oui_text]: of the two names of [00-11-22], the
    later one. *)
Lemma registry_holds_the_last_entry_of_each_key_at_sample :
  ({[ "00-11-22" := "Acme Corp  "; "AA-BB-CC" := "Other Corp" ]}
     : gmap string string)
  = list_to_map
      (reverse (entries oui_separator (bufio.Scan sample_oui_text))).
Proof.
  destruct (registry_holds_the_last_entry_of_each_key
              (sample_files "/opt/netnet") "/opt/netnet" sample_oui_text
              {[ "00-11-22" := "Acme Corp  "; "AA-BB-CC" := "Other Corp" ]})
    as [H _].
  apply H; vm_compute; reflexivity.
Defined.

(** X8.  [parseOui] and [parseCid] panic, with an index out of range,
    exactly when a line of the file holds [(hex)] without the separator
    of the file; no other panic is possible. *)
Theorem registry_panics_on_a_line_without_separator
  (files : gmap string string) (dir text : string) :
  (files !! oui_path dir = Some text ->
   (parseOui files dir = Panic (IndexOutOfRange 1 1) <->
    Exists (fun line => broken_line oui_separator line = true)
      (bufio.Scan text))
   /\ forall p, parseOui files dir = Panic p -> p = IndexOutOfRange 1 1)
  /\ (files !! cid_path dir = Some text ->
      (parseCid files dir = Panic (IndexOutOfRange 1 1) <->
       Exists (fun line => broken_line cid_separator line = true)
         (bufio.Scan text))
      /\ forall p, parseCid files dir = Panic p -> p = IndexOutOfRange 1 1).
Proof.
  assert (G : forall sep lines, sep <> "" ->
            (registry_from sep lines ∅ = Panic (IndexOutOfRange 1 1) <->
             Exists (fun line => broken_line sep line = true) lines)
            /\ forall p, registry_from sep lines ∅ = Panic p ->
                         p = IndexOutOfRange 1 1).
  { intros sep lines Hsep.
    destruct (registry_from_cases sep lines Hsep) as [[F E]|[X E]];
      rewrite E.
    - split; [split; [discriminate|] | discriminate].
      intros X. apply Exists_exists in X as (line & Hin & Hb).
      rewrite Forall_forall in F. specialize (F line Hin). congruence.
    - split; [tauto | now intros p [= <-]]. }
  split; intros Hf.
  - unfold parseOui. fold (oui_path dir). rewrite Hf.
    apply G, oui_separator_not_empty.
  - unfold parseCid. fold (cid_path dir). rewrite Hf.
    apply G, cid_separator_not_empty.
Qed.

(** The theorem at [broken_oui_text]. *)
Lemma registry_panics_on_a_line_without_separator_at_broken :
  parseOui {[ oui_path "/opt/netnet" := broken_oui_text ]} "/opt/netnet"
  = Panic (IndexOutOfRange 1 1).
Proof.
  destruct (registry_panics_on_a_line_without_separator
              {[ oui_path "/opt/netnet" := broken_oui_text ]}
              "/opt/netnet" broken_oui_text) as [H _].
  destruct (H (lookup_singleton_eq _ _)) as [[_ Hx] _].
  apply Hx, Exists_cons_hd. reflexivity.
Defined.

Lemma lookup_list_to_map_first (l1 l2 : list (string * string))
  (k v : string) :
  Forall (fun e => e.1 <> k) l1 ->
  (list_to_map (l1 ++ (k, v) :: l2) : gmap string string) !! k = Some v.
Proof.
  induction 1 as [|[k' v'] l1 Hk _ IH]; cbn [app].
  - rewrite list_to_map_cons. apply lookup_insert_eq.
  - rewrite list_to_map_cons, lookup_insert_ne by exact Hk. exact IH.
Qed.

Lemma lookup_last_entry (sep : string) (lines before after : list string)
  (line : string) :
  hex_lines lines = before ++ line :: after ->
  Forall (fun l => (entry sep l).1 <> (entry sep line).1) after ->
  (list_to_map (reverse (entries sep lines)) : gmap string string)
    !! (entry sep line).1
  = Some (entry sep line).2.
Proof.
  intros Hl Ha. unfold entries. rewrite Hl, map_app. cbn [map].
  rewrite reverse_app, reverse_cons, <- app_assoc. cbn [app].
  destruct (entry sep line) as [k v] eqn:E. cbn [fst snd] in *.
  apply lookup_list_to_map_first.
  apply Forall_forall. intros e He.
  apply elem_of_reverse, list_elem_of_In, in_map_iff in He as (l & <- & Hin).
  rewrite Forall_forall in Ha. apply Ha. now apply list_elem_of_In.
Qed.

(** X9.  From the registry files to the organization of a client.  Let
    the registries be what [parseOui] and [parseCid] returned, and let the
    first 8 bytes of the address of a client be the key of a line of a
    registry file that no later line of the file repeats.  If the line is
    in the OUI file and the address is globally assigned, [enrich] gives
    the client the name of the line, trimmed; if it is in the CID file and
    the address is locally administered, it gives the trimmed name, or
    [LOCAL] when that is empty. *)
Theorem registered_prefix_resolves
  (files : gmap string string) (dir : string)
  (ouidb ciddb : gmap string string) (c : Client.t)
  (text line : string) (before after : list string) :
  parseOui files dir = Ok ouidb ->
  parseCid files dir = Ok ciddb ->
  (8 <= GoString.len (Client.MAC c))%nat ->
  (files !! oui_path dir = Some text ->
   hex_lines (bufio.Scan text) = before ++ line :: after ->
   Forall (fun l => (entry oui_separator l).1
                    <> (entry oui_separator line).1) after ->
   GoString.prefix_bytes 8 (Client.MAC c) = (entry oui_separator line).1 ->
   isLocalMAC (Client.MAC c) = Ok false ->
   enrich ouidb ciddb c
   = Ok (Client.with_Organization c
           (GoString.TrimSpace (entry oui_separator line).2)))
  /\ (files !! cid_path dir = Some text ->
      hex_lines (bufio.Scan text) = before ++ line :: after ->
      Forall (fun l => (entry cid_separator l).1
                       <> (entry cid_separator line).1) after ->
      GoString.prefix_bytes 8 (Client.MAC c) = (entry cid_separator line).1 ->
      isLocalMAC (Client.MAC c) = Ok true ->
      enrich ouidb ciddb c
      = Ok (Client.with_Organization c
              (if String.eqb
                    (GoString.TrimSpace (entry cid_separator line).2) ""
               then "LOCAL"
               else GoString.TrimSpace (entry cid_separator line).2))).
Proof.
  intros Ho Hc Hlen.
  destruct (enrich_Ok ouidb ciddb c Hlen) as (b & Hb & He).
  split; intros Hf Hl Ha Hk Hloc; rewrite Hloc in Hb; injection Hb as <-;
    rewrite He; cbn zeta; rewrite Hk; unfold map_get.
  - rewrite (proj1 (registry_holds_the_last_entry_of_each_key_aux
                      files dir text ouidb ciddb) Hf Ho).
    now rewrite (lookup_last_entry _ _ _ _ _ Hl Ha).
  - rewrite (proj2 (registry_holds_the_last_entry_of_each_key_aux
                      files dir text ouidb ciddb) Hf Hc).
    now rewrite (lookup_last_entry _ _ _ _ _ Hl Ha).
Qed.

(** The theorem at [sample_oui_text] and a client whose address starts
    with [00-11-22]: the name of the last line of that key, trimmed. *)
Lemma registered_prefix_resolves_at_sample :
  enrich sample_ouidb sample_ciddb global_client
  = Ok (Client.with_Organization global_client "Acme Corp").
Proof.
  refine (proj1 (registered_prefix_resolves
                   (sample_files "/opt/netnet") "/opt/netnet"
                   sample_ouidb sample_ciddb global_client sample_oui_text
                   ("00-11-22" +:+ oui_separator +:+ "Acme Corp  ")
                   ["00-11-22" +:+ oui_separator +:+ "Old Name";
                    "AA-BB-CC" +:+ oui_separator +:+ "Other Corp"]
                   [] _ _ _) _ _ _ _ _);
    try (vm_compute; reflexivity).
  - vm_compute. lia.
  - constructor.
Defined.

(** X10.  When neither registry file can be opened, [parseOui] and
    [parseCid] return registries without entries, and every client that
    [getClientsData] then returns has the organization [LOCAL] if its
    address is locally administered and no organization otherwise. *)
Theorem unreadable_registries_resolve_nothing
  (files : gmap string string) (dir : string) :
  files !! oui_path dir = None ->
  files !! cid_path dir = None ->
  exists ouidb ciddb : gmap string string,
    parseOui files dir = Ok ouidb
    /\ parseCid files dir = Ok ciddb
    /\ forall (local : time.Location) (data : string)
              (clients : list Client.t) (c : Client.t),
         getClientsData ouidb ciddb local data = Ok clients ->
         In c clients ->
         (isLocalMAC (Client.MAC c) = Ok true
          /\ Client.Organization c = "LOCAL")
         \/ (isLocalMAC (Client.MAC c) = Ok false
             /\ Client.Organization c = "").
Proof.
  intros Ho Hc. exists ∅, ∅.
  split; [unfold parseOui; fold (oui_path dir); now rewrite Ho|].
  split; [unfold parseCid; fold (cid_path dir); now rewrite Hc|].
  intros local data clients c Hd Hin.
  destruct (getClientsData_In _ _ _ _ _ _ Hd Hin) as (record & _ & _ & He).
  pose proof (enrich_Ok_inv _ _ _ _ He) as Hlen.
  destruct (enrich_Ok ∅ ∅ _ Hlen) as (b & Hb & Hv).
  rewrite He in Hv. injection Hv as ->.
  cbn [Client.with_Organization Client.MAC Client.Organization].
  rewrite Hb. unfold map_get. rewrite !lookup_empty.
  destruct b; [left | right]; split; reflexivity.
Qed.

(** The theorem on a file system without registry files, at the client
    row of the scenario. *)
Lemma unreadable_registries_resolve_nothing_at_scenario :
  exists ouidb ciddb : gmap string string,
    parseOui ∅ "/opt/netnet" = Ok ouidb
    /\ parseCid ∅ "/opt/netnet" = Ok ciddb
    /\ forall (local : time.Location) (data : string)
              (clients : list Client.t) (c : Client.t),
         getClientsData ouidb ciddb local data = Ok clients ->
         In c clients ->
         (isLocalMAC (Client.MAC c) = Ok true
          /\ Client.Organization c = "LOCAL")
         \/ (isLocalMAC (Client.MAC c) = Ok false
             /\ Client.Organization c = "").
Proof.
  apply (unreadable_registries_resolve_nothing ∅ "/opt/netnet");
    apply lookup_empty.
Defined.

(** ** The csv reader on whole lines *)

Lemma ends_line_cons (c d : ascii) (r : string) :
  ends_line (String c (String d r)) = ends_line (String d r).
Proof. reflexivity. Qed.

Lemma normalize_app (t1 t2 : string) :
  ends_line t1 = true ->
  csv.normalize (t1 +:+ t2) = csv.normalize t1 +:+ csv.normalize t2.
Proof.
  induction t1 as [|c r IH]; intros He; [reflexivity|].
  destruct r as [|d r].
  - cbn [ends_line] in He.
    change (String c "" +:+ t2) with (String c t2).
    cbn [csv.normalize].
    assert (Hc : csv.carriage_return c = false).
    { unfold csv.newline, csv.carriage_return, csv.is_byte in *.
      apply Z.eqb_eq in He. rewrite He. reflexivity. }
    now rewrite Hc.
  - rewrite ends_line_cons in He. specialize (IH He).
    change (String c (String d r) +:+ t2)
      with (String c (String d r +:+ t2)).
    change (String d r +:+ t2) with (String d (r +:+ t2)) in *.
    cbn [csv.normalize] in *.
    destruct (csv.carriage_return c).
    + destruct (csv.newline d).
      * exact IH.
      * change (String c ?x +:+ ?y) with (String c (x +:+ y)).
        now rewrite IH.
    + change (String c ?x +:+ ?y) with (String c (x +:+ y)).
      now rewrite IH.
Qed.

Lemma normalize_whole (t : string) :
  t <> "" -> quote_free t = true -> ends_line t = true ->
  csv.normalize t <> ""
  /\ quote_free (csv.normalize t) = true
  /\ ends_line (csv.normalize t) = true.
Proof.
  induction t as [|c r IH]; intros Hn Hq He; [congruence|].
  cbn [quote_free] in Hq. apply andb_true_iff in Hq as [Hc Hq].
  destruct r as [|d r].
  - cbn [ends_line] in He. cbn [csv.normalize].
    assert (Hcr : csv.carriage_return c = false).
    { unfold csv.newline, csv.carriage_return, csv.is_byte in *.
      apply Z.eqb_eq in He. rewrite He. reflexivity. }
    rewrite Hcr. cbn [quote_free ends_line]. rewrite Hc, He.
    repeat split. discriminate.
  - rewrite ends_line_cons in He.
    destruct (IH ltac:(discriminate) Hq He) as (Hn' & Hq' & He').
    cbn [csv.normalize].
    assert (G : String c (csv.normalize (String d r)) <> ""
                /\ quote_free (String c (csv.normalize (String d r))) = true
                /\ ends_line (String c (csv.normalize (String d r))) = true).
    { split; [discriminate|]. split.
      - cbn [quote_free]. now rewrite Hc, Hq'.
      - destruct (csv.normalize (String d r)) as [|x X]; [congruence|].
        now rewrite ends_line_cons. }
    destruct (csv.carriage_return c); [destruct (csv.newline d)|];
      auto.
Qed.

Lemma space2_newline (a b : ascii) :
  csv.newline b = true -> GoString.space2 a b = false.
Proof.
  unfold csv.newline, csv.is_byte, GoString.space2. intros H%Z.eqb_eq.
  rewrite H. apply andb_false_r.
Qed.

Lemma space3_newline_2 (a b c : ascii) :
  csv.newline b = true -> GoString.space3 a b c = false.
Proof.
  unfold csv.newline, csv.is_byte, GoString.space3. intros H%Z.eqb_eq.
  rewrite H. cbn. now rewrite !andb_false_r.
Qed.

Lemma space3_newline_3 (a b c : ascii) :
  csv.newline c = true -> GoString.space3 a b c = false.
Proof.
  unfold csv.newline, csv.is_byte, GoString.space3. intros H%Z.eqb_eq.
  rewrite H. cbn. now rewrite !andb_false_r.
Qed.

Lemma read_FieldStart_cons (line_start : bool) (fields : list string)
  (a : ascii) (r : string) :
  csv.read (csv.FieldStart line_start fields) (String a r) =
  if csv.newline a then
    if line_start then csv.read (csv.FieldStart true []) r
    else (fields ++ [""], None) :: csv.read (csv.FieldStart true []) r
  else if GoString.space1 a then csv.read (csv.FieldStart false fields) r
  else if csv.quote a then csv.read (csv.Quoted fields "") r
  else if csv.comma a then
    csv.read (csv.FieldStart false (fields ++ [""])) r
  else
    match r with
    | String b r2 =>
        if GoString.space2 a b then csv.read (csv.FieldStart false fields) r2
        else
          match r2 with
          | String c r3 =>
              if GoString.space3 a b c
              then csv.read (csv.FieldStart false fields) r3
              else csv.read (csv.Bare fields (String a "")) r
          | "" => csv.read (csv.Bare fields (String a "")) r
          end
    | "" => csv.read (csv.Bare fields (String a "")) r
    end.
Proof. reflexivity. Qed.

Lemma read_Bare_cons (fields : list string) (field : string) (a : ascii)
  (r : string) :
  csv.read (csv.Bare fields field) (String a r) =
  if csv.newline a then
    (fields ++ [String.rev field], None)
    :: csv.read (csv.FieldStart true []) r
  else if csv.comma a then
    csv.read (csv.FieldStart false (fields ++ [String.rev field])) r
  else if csv.quote a then csv.read (csv.Discard fields csv.ErrBareQuote) r
  else csv.read (csv.Bare fields (String a field)) r.
Proof. reflexivity. Qed.

Lemma ends_line_last (a : ascii) :
  ends_line (String a "") = csv.newline a.
Proof. reflexivity. Qed.

(** Over a text of whole lines without quotes, the reader returns the
    rows of the text and is back at the start of a line. *)
Lemma read_whole_lines (n : nat) :
  forall (u v : string) (st : csv.state),
    (GoString.len u <= n)%nat -> u <> "" ->
    quote_free u = true -> ends_line u = true -> open_state st ->
    csv.read st (u +:+ v)
    = csv.read st u ++ csv.read (csv.FieldStart true []) v.
Proof.
  induction n as [|n IH]; intros u v st Hn Hu Hq He Hst.
  { destruct u; [congruence | unfold GoString.len in Hn; simpl in Hn; lia]. }
  destruct u as [|a r]; [congruence|].
  cbn [quote_free] in Hq. apply andb_true_iff in Hq as [Hqa Hq].
  apply negb_true_iff in Hqa.
  assert (Hr : (GoString.len r <= n)%nat)
    by (unfold GoString.len in *; simpl in Hn; lia).
  change (String a r +:+ v) with (String a (r +:+ v)).
  destruct r as [|b r].
  - (* the newline that ends the text *)
    rewrite ends_line_last in He. change ("" +:+ v) with v.
    destruct st as [ls fs|fs f| | |]; try contradiction.
    + rewrite !read_FieldStart_cons, He. now destruct ls.
    + rewrite !read_Bare_cons, He. reflexivity.
  - rewrite ends_line_cons in He.
    assert (IHr : forall st', open_state st' ->
               csv.read st' (String b r +:+ v)
               = csv.read st' (String b r)
                 ++ csv.read (csv.FieldStart true []) v)
      by (intros st' Hst'; apply IH; auto; discriminate).
    destruct st as [ls fs|fs f| | |]; try contradiction.
    + rewrite !read_FieldStart_cons, Hqa.
      destruct (csv.newline a);
        [destruct ls; now rewrite IHr|].
      destruct (GoString.space1 a); [now apply IHr|].
      destruct (csv.comma a); [now apply IHr|].
      change (String b r +:+ v) with (String b (r +:+ v)).
      cbn [quote_free] in Hq. apply andb_true_iff in Hq as [Hqb Hq].
      destruct r as [|c r].
      * (* the byte before the newline that ends the text *)
        rewrite ends_line_last in He.
        rewrite (space2_newline a b He). change ("" +:+ v) with v.
        replace (match v with
                 | "" => csv.read (csv.Bare fs (String a "")) (String b v)
                 | String c r3 =>
                     if GoString.space3 a b c
                     then csv.read (csv.FieldStart false fs) r3
                     else csv.read (csv.Bare fs (String a "")) (String b v)
                 end)
          with (csv.read (csv.Bare fs (String a "")) (String b v))
          by (destruct v; [|rewrite (space3_newline_2 a b _ He)];
              reflexivity).
        apply (IHr (csv.Bare fs (String a ""))). exact I.
      * rewrite ends_line_cons in He.
        destruct (GoString.space2 a b).
        { apply IH;
            [unfold GoString.len in *; simpl in *; lia | discriminate
            | assumption | assumption | exact I]. }
        change (String c r +:+ v) with (String c (r +:+ v)).
        lazy beta iota.
        destruct (GoString.space3 a b c) eqn:S3;
          [|apply (IHr (csv.Bare fs (String a ""))); exact I].
        cbn [quote_free] in Hq. apply andb_true_iff in Hq as [Hqc Hq].
        destruct r as [|d r].
        { rewrite ends_line_last in He.
          rewrite (space3_newline_3 a b c He) in S3. discriminate. }
        apply IH;
          [unfold GoString.len in *; simpl in *; lia | discriminate
          | assumption | assumption | exact I].
    + rewrite !read_Bare_cons, Hqa.
      destruct (csv.newline a); [now rewrite IHr|].
      destruct (csv.comma a); now apply IHr.
Qed.

Lemma ReadAll_app (t1 t2 : string) :
  whole_lines t1 ->
  csv.ReadAll (t1 +:+ t2) = csv.ReadAll t1 ++ csv.ReadAll t2.
Proof.
  intros [Hq He]. destruct t1 as [|a t1]; [reflexivity|].
  unfold csv.ReadAll. rewrite normalize_app by exact He.
  destruct (normalize_whole (String a t1) ltac:(discriminate) Hq He)
    as (Hn & Hq' & He').
  now apply (read_whole_lines (GoString.len (csv.normalize (String a t1)))).
Qed.

Lemma records_app (t1 t2 : string) :
  whole_lines t1 -> records (t1 +:+ t2) = records t1 ++ records t2.
Proof.
  intros H. unfold records. now rewrite ReadAll_app, map_app.
Qed.

Lemma mapM_app {A B : Type} (f : A -> result B) (l1 l2 : list A) :
  mapM f (l1 ++ l2) = b1 ← mapM f l1; b2 ← mapM f l2; Ok (b1 ++ b2).
Proof.
  induction l1 as [|a l1 IH]; cbn [app mapM].
  - cbn [mbind result_bind]. now destruct (mapM f l2).
  - destruct (f a) as [b|p]; cbn [mbind result_bind]; [|reflexivity].
    rewrite IH. destruct (mapM f l1) as [b1|p]; cbn [mbind result_bind];
      [|reflexivity].
    now destruct (mapM f l2).
Qed.

(** X11.  Rows are parsed one by one: when a text of whole lines without
    double quotes is followed by another text, the reader returns the
    records of the first and then those of the second, [getClientsData]
    returns the clients of the first followed by the clients of the
    second (or the first panic), and [getAPData], when the first text
    holds the header, the access points of the first followed by one for
    every record of the second that has at least 14 columns. *)
Theorem whole_lines_are_parsed_one_by_one
  (ouidb ciddb : gmap string string) (local : time.Location)
  (t1 t2 : string) :
  whole_lines t1 ->
  records (t1 +:+ t2) = records t1 ++ records t2
  /\ getClientsData ouidb ciddb local (t1 +:+ t2) =
     (cs1 ← getClientsData ouidb ciddb local t1;
      cs2 ← getClientsData ouidb ciddb local t2;
      Ok (cs1 ++ cs2))
  /\ (records t1 <> [] ->
      getAPData local (t1 +:+ t2) =
      aps ← getAPData local t1;
      Ok (aps ++ map (accessPoint_values local)
                   (List.filter (has_columns 14) (records t2)))).
Proof.
  intros H. pose proof (records_app t1 t2 H) as Hr.
  split; [exact Hr|]. split.
  - rewrite !getClientsData_rows, Hr, List.filter_app. apply mapM_app.
  - intros Hne. rewrite !getAPData_rows, Hr. cbn [mbind result_bind].
    destruct (records t1) as [|header rows]; [congruence|].
    cbn [app tl]. now rewrite List.filter_app, map_app.
Qed.

(** The theorem at two client rows. *)
Lemma whole_lines_are_parsed_one_by_one_at_two_rows :
  getClientsData ∅ ∅ time.UTC
    (client_section scenario_dump +:+ global_client_row) =
  Ok [sample_client; Client.with_Organization global_client ""].
Proof.
  destruct (whole_lines_are_parsed_one_by_one ∅ ∅ time.UTC
              (client_section scenario_dump) global_client_row)
    as (_ & H & _); [split; reflexivity|].
  exact H.
Defined.

(** X12.  Rows with too few columns change nothing: whole lines without
    double quotes whose records have fewer than 7 columns can be put
    between the rows of a client section, or taken out, and
    [getClientsData] returns the same; so for [getAPData] and lines whose
    records have fewer than 14 columns, after the header. *)
Theorem short_rows_change_nothing
  (ouidb ciddb : gmap string string) (local : time.Location)
  (t1 u t2 : string) :
  whole_lines t1 -> whole_lines u ->
  (Forall (fun record => (length record < 7)%nat) (records u) ->
   getClientsData ouidb ciddb local (t1 +:+ u +:+ t2)
   = getClientsData ouidb ciddb local (t1 +:+ t2))
  /\ (records t1 <> [] ->
      Forall (fun record => (length record < 14)%nat) (records u) ->
      getAPData local (t1 +:+ u +:+ t2) = getAPData local (t1 +:+ t2)).
Proof.
  intros H1 Hu.
  assert (F : forall n, Forall (fun record => (length record < n)%nat)
                          (records u) ->
              List.filter (has_columns n) (records u) = []).
  { intros n. induction 1 as [|r l Hr _ IH]; [reflexivity|].
    cbn [List.filter]. unfold has_columns at 1.
    now destruct (Nat.leb_spec n (length r)); [lia|]. }
  split.
  - intros Hs. rewrite !getClientsData_rows.
    rewrite (records_app t1 (u +:+ t2) H1), (records_app u t2 Hu).
    rewrite (records_app t1 t2 H1), !List.filter_app, (F 7%nat Hs).
    reflexivity.
  - intros Hne Hs. rewrite !getAPData_rows.
    rewrite (records_app t1 (u +:+ t2) H1), (records_app u t2 Hu).
    rewrite (records_app t1 t2 H1).
    destruct (records t1) as [|header rows]; [congruence|].
    cbn [app tl]. now rewrite !List.filter_app, (F 14%nat Hs).
Qed.

(** The theorem at a row of five columns between two client rows. *)
Lemma short_rows_change_nothing_at_five_columns :
  getClientsData ∅ ∅ time.UTC
    (client_section scenario_dump +:+ five_column_row +:+ global_client_row)
  = getClientsData ∅ ∅ time.UTC
      (client_section scenario_dump +:+ global_client_row).
Proof.
  destruct (short_rows_change_nothing ∅ ∅ time.UTC
              (client_section scenario_dump) five_column_row
              global_client_row) as [H _]; [split; reflexivity ..|].
  apply H. repeat constructor.
Defined.

(** ** The panics of [parseAirodumpCsv] *)

Lemma parseAirodumpCsv_no_marker (ouidb ciddb : gmap string string)
  (local : time.Location) (files : gmap string string) (file s : string) :
  files !! file = Some s ->
  GoString.Contains s marker = false ->
  parseAirodumpCsv ouidb ciddb local files file = Panic (IndexOutOfRange 1 1).
Proof.
  intros Hf Hm. unfold parseAirodumpCsv.
  rewrite Hf, (Split_absent s marker Hm).
  cbn [GoString.index lookup list_lookup mbind result_bind].
  now rewrite getAPData_rows.
Qed.

(** X13.  The two ways [parseAirodumpCsv] can panic on a dump file it
    could read, and no other: the dump does not hold the marker line
    (index out of range at [csvdata[1]]), or it does and a record of the
    client section has at least 7 columns and an address of fewer than 8
    bytes (slice bounds out of range).  No column is ever read out of a
    record that is too short. *)
Theorem parseAirodumpCsv_panics_exactly_when
  (ouidb ciddb : gmap string string) (local : time.Location)
  (files : gmap string string) (file s : string) :
  files !! file = Some s ->
  ((exists p, parseAirodumpCsv ouidb ciddb local files file = Panic p) <->
   GoString.Contains s marker = false
   \/ Exists (fun record => short_address_row record = true) (client_rows s))
  /\ forall p, parseAirodumpCsv ouidb ciddb local files file = Panic p ->
       p = IndexOutOfRange 1 1
       \/ exists bound len : nat,
            p = SliceBoundsOutOfRange bound len
            /\ (bound = 2 \/ bound = 8)%nat /\ (len < 8)%nat.
Proof.
  intros Hf. destruct (GoString.Contains s marker) eqn:Hm.
  2:{ rewrite (parseAirodumpCsv_no_marker _ _ _ _ _ _ Hf Hm). split.
      - split; [now left | eauto].
      - intros p [= <-]. now left. }
  rewrite (parseAirodumpCsv_sections _ _ _ _ _ _ Hf Hm).
  rewrite getClientsData_rows. fold (client_rows s).
  assert (Hshort : forall record p,
             enrich ouidb ciddb (client_values local record) = Panic p ->
             (GoString.len (column record 0) < 8)%nat
             /\ exists bound, p = SliceBoundsOutOfRange bound
                                    (GoString.len (column record 0))
                              /\ (bound = 2 \/ bound = 8)%nat).
  { intros record p Hp.
    destruct (Nat.lt_ge_cases (GoString.len (column record 0)) 8) as [L|L].
    - split; [exact L|].
      destruct (enrich_Panic ouidb ciddb (client_values local record))
        as (bound & E & Hb); [now rewrite client_values_MAC_len|].
      rewrite client_values_MAC_len in E. rewrite Hp in E.
      injection E as ->. eauto.
    - destruct (enrich_Ok ouidb ciddb (client_values local record))
        as (b & _ & E); [now rewrite client_values_MAC_len | congruence]. }
  split.
  - split.
    + intros [p Hp]. right.
      destruct (mapM _ _) as [cs|q] eqn:E; [discriminate|].
      apply mapM_Panic_inv in E as (record & Hin & Hq).
      apply filter_In in Hin as [Hin H7].
      apply List.Exists_exists. exists record. split; [exact Hin|].
      unfold short_address_row. rewrite H7. cbn [andb].
      apply Nat.ltb_lt. now destruct (Hshort _ _ Hq).
    + intros [H|H]; [discriminate|].
      apply List.Exists_exists in H as (record & Hin & Hs).
      unfold short_address_row in Hs. apply andb_true_iff in Hs as [H7 H8].
      apply Nat.ltb_lt in H8.
      destruct (mapM_Panic
                  (fun record => enrich ouidb ciddb
                                   (client_values local record))
                  (List.filter (has_columns 7) (client_rows s)))
        as [p Hp].
      { apply List.Exists_exists. exists record.
        split; [apply filter_In; now split|].
        destruct (enrich_Panic ouidb ciddb (client_values local record))
          as (bound & E & _); [now rewrite client_values_MAC_len | eauto]. }
      exists p. now rewrite Hp.
  - intros p Hp. right.
    destruct (mapM _ _) as [cs|q] eqn:E; [discriminate|].
    cbn [mbind result_bind] in Hp. injection Hp as ->.
    apply mapM_Panic_inv in E as (record & _ & Hq).
    destruct (Hshort _ _ Hq) as (L & bound & -> & Hb).
    exists bound, (GoString.len (column record 0)). auto.
Qed.

(** The theorem at [short_address_dump]. *)
Lemma parseAirodumpCsv_panics_exactly_when_at_short_address :
  exists p,
    parseAirodumpCsv ∅ ∅ time.UTC {[csvFile := short_address_dump]} csvFile
    = Panic p.
Proof.
  destruct (parseAirodumpCsv_panics_exactly_when ∅ ∅ time.UTC
              {[csvFile := short_address_dump]} csvFile short_address_dump)
    as [[_ H] _]; [reflexivity|].
  apply H. right. apply Exists_cons_hd. reflexivity.
Defined.

(** * Evaluations *)

Example short_address_dump_panics :
  parseAirodumpCsv ∅ ∅ time.UTC {[csvFile := short_address_dump]} csvFile
  = Panic (SliceBoundsOutOfRange 8 5).
Proof. reflexivity. Qed.

Example empty_address_panics :
  getClientsData ∅ ∅ time.UTC ", a, b, c, d, e, f" =
  Panic (SliceBoundsOutOfRange 2 0).
Proof. reflexivity. Qed.

Example markerless_dump_panics :
  parseAirodumpCsv ∅ ∅ time.UTC {[csvFile := markerless_dump]} csvFile
  = Panic (IndexOutOfRange 1 1).
Proof. reflexivity. Qed.

Example scenario_sections :
  accessPoint_rows scenario_dump =
    [["00:11:22:33:44:55"; "2024-01-01 09:00:00"; "2024-01-01 10:05:00"; "6";
      "54"; "WPA2"; "CCMP"; "PSK"; "-50"; "10"; "0"; "0.0.0.0"; "4"; "home"]]
  /\ client_rows scenario_dump =
    [["AA:BB:CC:DD:EE:FF"; "2024-01-01 10:00:00"; "2024-01-01 10:05:00";
      "-40"; "12"; "(not associated)"; ""]].
Proof. split; reflexivity. Qed.

Example Atoi_values :
  strconv.Atoi "-40" = ((-40)%Z, None)
  /\ strconv.Atoi "+7" = (7%Z, None)
  /\ strconv.Atoi "" = (0%Z, Some strconv.ErrSyntax)
  /\ strconv.Atoi "-" = (0%Z, Some strconv.ErrSyntax)
  /\ strconv.Atoi "12x" = (0%Z, Some strconv.ErrSyntax)
  /\ strconv.Atoi "99999999999999999999"
     = ((2 ^ 63 - 1)%Z, Some strconv.ErrRange)
  /\ strconv.Atoi "-9223372036854775808" = ((- 2 ^ 63)%Z, None)
  /\ strconv.Atoi "-9223372036854775809"
     = ((- 2 ^ 63)%Z, Some strconv.ErrRange).
Proof. repeat split. Qed.

Example ParseInt_values :
  strconv.ParseInt "02" 16 32 = (2%Z, None)
  /\ strconv.ParseInt "Aa" 16 32 = (170%Z, None)
  /\ strconv.ParseInt "-1" 16 32 = ((-1)%Z, None)
  /\ strconv.ParseInt "0x" 16 32 = (0%Z, Some strconv.ErrSyntax)
  /\ strconv.ParseInt "80000000" 16 32
     = ((2 ^ 31 - 1)%Z, Some strconv.ErrRange).
Proof. repeat split. Qed.

Example Split_values :
  GoString.Split "a,b,,c" "," = ["a"; "b"; ""; "c"]
  /\ GoString.Split "aXYbXYXY" "XY" = ["a"; "b"; ""; ""]
  /\ GoString.Split "aaa" "aa" = [""; "a"]
  /\ GoString.Split "abc" "XY" = ["abc"].
Proof. repeat split. Qed.

Example TrimSpace_values :
  GoString.TrimSpace "  a b  " = "a b"
  /\ GoString.TrimSpace (String "194" (String "160" "x")) = "x"
  /\ GoString.TrimSpace (String "x" (String "226" (String "128" (String "168" ""))))
     = "x".
Proof. repeat split. Qed.

Example ReadAll_values :
  csv.ReadAll "a, b,c
x,y

 
q" = [(["a"; "b"; "c"], None); (["x"; "y"], None); ([""], None);
      (["q"], None)].
Proof. reflexivity. Qed.

Example ParseInLocation_values :
  time.ParseInLocation "1970-01-01 00:00:00" time.UTC
  = ((time.unixToInternal * 1000000000)%Z, None)
  /\ time.ParseInLocation "2024-01-01 10:00:00" time.UTC
     = (((time.unixToInternal + 1704103200) * 1000000000)%Z, None)
  /\ time.ParseInLocation "2024-02-29 9:00:00.5" time.UTC
     = (((time.unixToInternal + 1709197200) * 1000000000 + 500000000)%Z, None)
  /\ time.ParseInLocation "2023-02-29 09:00:00" time.UTC
     = (time.zero, Some time.BadValue)
  /\ time.ParseInLocation "0001-01-01 00:00:00" time.UTC = (time.zero, None)
  /\ time.ParseInLocation "never" time.UTC = (time.zero, Some time.BadValue).
Proof. repeat split. Qed.
